(** * A personal finance ledger over a JSON file: model and verification

    Shallow embedding of [main.py]: the classes [DataFormat],
    [DataControl], [UserInterface.actual_balance] and
    [Main.display_balance], followed by the properties of the record
    store.

    Modelling choices.
    - A stored record is a Python [dict] with string keys: a
      [gmap string value] (lookup by key, equality up to key order, as
      Python's [==] on dicts).
    - Field values are the two kinds of JSON scalar the program handles:
      strings and numbers.  Amounts are Python floats, as [float(input())]
      makes them; a finite float is a rational number, and [VNum] carries
      that number ([inf] and [nan] are not represented).  What [sum] and
      [-] make of floats is the arithmetic of the host, which rounds: it
      is an interface ([Arithmetic]), and nothing is assumed of it but
      what a theorem says.
    - Search criteria are the [items()] of a dict, in insertion order: an
      association list, since the order decides where [all] stops.
    - The [json] module is an interface ([JsonModule]); what the program
      needs of it is that [load] reads back what [dump] wrote.
    - The file system and the console are explicit state ([world]);
      exceptions are explicit results ([Raise]).  A file is known by the
      string of its path, and a path that exists holds a text the program
      may read: two spellings of one path, directories, undecodable bytes
      and permissions are not modelled.
    - The methods that talk to the user ([input_record],
      [input_search_criteria], [display_records] and the menu of [Main])
      run over a [session]: the lines still to be typed, what has been
      written, and the world.  [float] and [int] are an interface
      ([Builtins]).  The menu loop takes a number of turns, and one more
      than there are lines is shown to be enough. *)

From Stdlib Require Import QArith Qcanon.
From Stdlib Require Floats Uint63.
From stdpp Require Import gmap strings list fin_maps numbers.

Open Scope Qc_scope.

(** ** Values, exceptions, results *)

Inductive value : Type :=
  | VStr (s : string)
  | VNum (q : Qc).

Global Instance value_eq_dec : EqDecision value.
Proof. solve_decision. Defined.

(** [Dict[str, Any]] *)
Abbreviation record := (gmap string value).

Inductive exn : Type :=
  | KeyError (key : string)
  | TypeError
  | FileNotFoundError (path : string)
  | JSONDecodeError.

Inductive result (A : Type) : Type :=
  | Ok (a : A)
  | Raise (e : exn).
Arguments Ok {A} a.
Arguments Raise {A} e.

Global Instance result_ret : MRet result := fun A a => Ok a.
Global Instance result_bind : MBind result := fun A B f m =>
  match m with
  | Ok a => f a
  | Raise e => Raise e
  end.

(** [d[key]]: a missing key raises [KeyError]. *)
Definition getitem (d : record) (key : string) : result value :=
  match d !! key with
  | Some v => Ok v
  | None => Raise (KeyError key)
  end.

(** The two operations the program applies to amounts: the builtin
    [sum] of a sequence of numbers, and [-].  On floats both round, and
    how [sum] adds is the host's business, so they are not defined
    here. *)
Class Arithmetic : Type := {
  py_sum : list Qc -> Qc;
  py_sub : Qc -> Qc -> Qc
}.

(** [sum] takes the next item of its argument: a number joins the
    numbers taken so far; a string raises [TypeError], as adding it to
    the running total does. *)
Definition sum_item (acc : list Qc) (v : value) : result (list Qc) :=
  match v with
  | VNum a => Ok (acc ++ [a])
  | VStr _ => Raise TypeError
  end.

(** ** The json module and the world *)

(** The two functions of the [json] module the program calls, over the
    text of a file.  [json_load] returns [None] where [json.load] raises
    (text that is no JSON document); a document that is not an array of
    objects with scalar members is outside this model as well. *)
Class JsonModule : Type := {
  text : Type;
  json_dump : list record -> text;
  json_load : text -> option (list record)
}.

(** What the program relies on: a dumped document loads back. *)
Definition json_round_trip `{JsonModule} : Prop :=
  forall records : list record, json_load (json_dump records) = Some records.

(** The files by path, and the lines [print] has written. *)
Record world `{JsonModule} : Type := World {
  files : gmap string text;
  console : list (string * Qc)
}.

(** A method: it returns or raises, and leaves a world behind. *)
Definition io `{JsonModule} (A : Type) : Type := world -> result A * world.

Section IO.
Context `{JsonModule}.

Global Instance io_ret : MRet io := fun A a w => (Ok a, w).
Global Instance io_bind : MBind io := fun A B f m w =>
  match m w with
  | (Ok a, w') => f a w'
  | (Raise e, w') => (Raise e, w')
  end.

(** A computation that does not touch the world. *)
Definition lift {A : Type} (r : result A) : io A := fun w => (r, w).

(** [os.path.exists(path)] *)
Definition os_path_exists (path : string) : io bool := fun w =>
  (Ok (bool_decide (is_Some (files w !! path))), w).

(** [with open(path, 'r') as file: return json.load(file)] *)
Definition open_r_json_load (path : string) : io (list record) := fun w =>
  match files w !! path with
  | Some content =>
      match json_load content with
      | Some records => (Ok records, w)
      | None => (Raise JSONDecodeError, w)
      end
  | None => (Raise (FileNotFoundError path), w)
  end.

(** [with open(path, 'w') as file: json.dump(records, file, indent=4)]:
    mode ['w'] creates the file or replaces all it held. *)
Definition open_w_json_dump (path : string) (records : list record) : io unit :=
  fun w => (Ok tt, World _ (<[path := json_dump records]> (files w)) (console w)).

(** [print(label, x)] *)
Definition print (label : string) (x : Qc) : io unit := fun w =>
  (Ok tt, World _ (files w) (console w ++ [(label, x)])).

End IO.

(** ** class DataFormat *)

Module DataFormat.

Record t : Type := Build {
  date : string;
  category : string;
  amount : Qc;
  description : string
}.

Definition dictionary (self : t) : record :=
  <["date" := VStr (date self)]>
    (<["category" := VStr (category self)]>
      (<["amount" := VNum (amount self)]>
        (<["description" := VStr (description self)]> ∅))).

End DataFormat.

(** ** class DataControl *)

Module DataControl.

Record t : Type := Build { filename : string }.

(** [all(record[key] == value for key, value in search_criteria.items())]:
    [all] stops at the first pair that differs, and a key the record does
    not have raises [KeyError] when it is reached. *)
Fixpoint all_match (record0 : record) (items : list (string * value)) : result bool :=
  match items with
  | [] => Ok true
  | (key, v) :: items' =>
      x ← getitem record0 key;
      if bool_decide (x = v) then all_match record0 items' else Ok false
  end.

(** The loop [for record in records] of [search_records], with
    [matching_records] the list built so far. *)
Fixpoint search_loop (search_criteria : list (string * value))
    (records matching_records : list record) : result (list record) :=
  match records with
  | [] => Ok matching_records
  | record0 :: records' =>
      b ← all_match record0 search_criteria;
      if b : bool
      then search_loop search_criteria records' (matching_records ++ [record0])
      else search_loop search_criteria records' matching_records
  end.

Section Methods.
Context `{JsonModule}.

Definition read_file (self : t) : io (list record) :=
  b ← os_path_exists (filename self);
  if b : bool then open_r_json_load (filename self) else mret [].

Definition save_records (self : t) (records : list record) : io unit :=
  open_w_json_dump (filename self) records.

Definition add_record (self : t) (record0 : DataFormat.t) : io unit :=
  records ← read_file self;
  let records := records ++ [DataFormat.dictionary record0] in
  save_records self records.

Definition update_record (self : t) (index : Z) (updated_record : DataFormat.t)
    : io bool :=
  records ← read_file self;
  if bool_decide (0 ≤ index < Z.of_nat (length records))%Z then
    let records :=
      <[Z.to_nat index := DataFormat.dictionary updated_record]> records in
    _ ← save_records self records;
    mret true
  else mret false.

Definition search_records (self : t) (search_criteria : list (string * value))
    : io (list record) :=
  records ← read_file self;
  lift (search_loop search_criteria records []).

End Methods.
End DataControl.

(** ** class UserInterface *)

Module UserInterface.
Section Methods.
Context `{JsonModule}.

Definition actual_balance (balance income expenses : Qc) : io unit :=
  _ ← print "Текущий баланс:" balance;
  _ ← print "Текущий доход:" income;
  print "Текущий расход:" expenses.

End Methods.
End UserInterface.

(** ** class Main *)

Module Main.

Record t : Type := Build { data_manager : DataControl.t }.

Section Methods.
Context `{JsonModule} `{Arithmetic}.

(** [sum(record['amount'] for record in records if record['category'] == cat)]
    with [acc] the numbers [sum] has taken so far, none at the start: the
    category of every record is read, the amount only of the records of
    category [cat]; at the end of the records [sum] returns. *)
Fixpoint sum_amounts (cat : string) (records : list record) (acc : list Qc)
    : result Qc :=
  match records with
  | [] => Ok (py_sum acc)
  | record0 :: records' =>
      c ← getitem record0 "category";
      if bool_decide (c = VStr cat) then
        a ← getitem record0 "amount";
        acc' ← sum_item acc a;
        sum_amounts cat records' acc'
      else sum_amounts cat records' acc
  end.

Definition display_balance (self : t) : io unit :=
  records ← DataControl.read_file (data_manager self);
  income ← lift (sum_amounts "Доход" records []);
  expenses ← lift (sum_amounts "Расход" records []);
  let balance := py_sub income expenses in
  UserInterface.actual_balance balance income expenses.

End Methods.
End Main.

(** ** Vocabulary of the properties *)

(** The store of [self] holds [records]: that is what [read_file] returns. *)
Definition stores `{JsonModule} (self : DataControl.t) (w : world)
    (records : list record) : Prop :=
  DataControl.read_file self w = (Ok records, w).

(** Every key of the criteria is a field of the record. *)
Definition keys_present (criteria : list (string * value)) (r : record) : Prop :=
  Forall (fun kv => is_Some (r !! kv.1)) criteria.

(** The record agrees with the criteria on every key. *)
Definition satisfies (criteria : list (string * value)) (r : record) : Prop :=
  Forall (fun kv => r !! kv.1 = Some kv.2) criteria.

Global Instance satisfies_dec criteria r : Decision (satisfies criteria r).
Proof. unfold satisfies. apply _. Defined.

(** Every key of the criteria is a field of the record wherever [all]
    gets to it: whenever the pairs before it all agree with the record. *)
Definition keys_where_reached (criteria : list (string * value)) (r : record)
    : Prop :=
  forall criteria1 key v criteria2,
    criteria = criteria1 ++ (key, v) :: criteria2 ->
    satisfies criteria1 r -> is_Some (r !! key).

Definition has_category (cat : string) (r : record) : Prop :=
  r !! "category" = Some (VStr cat).

Global Instance has_category_dec cat r : Decision (has_category cat r).
Proof. unfold has_category. apply _. Defined.

Definition amount_of (r : record) : Qc :=
  match r !! "amount" with
  | Some (VNum a) => a
  | _ => 0
  end.

(** The amounts of the records of category [cat], in stored order. *)
Definition amounts (cat : string) (records : list record) : list Qc :=
  amount_of <$> filter (has_category cat) records.

(** A record the balance can be computed from: it has a category and a
    numeric amount. *)
Definition well_formed (r : record) : bool :=
  match r !! "category", r !! "amount" with
  | Some _, Some (VNum _) => true
  | _, _ => false
  end.

(** A record the sum over category [cat] gets past: it has a category,
    and if that is [cat], its amount is a number. *)
Definition summable (cat : string) (r : record) : Prop :=
  exists c, r !! "category" = Some c
            /\ (c = VStr cat -> exists a, r !! "amount" = Some (VNum a)).


(** The three lines [actual_balance] prints. *)
Definition balance_lines (balance income expenses : Qc) : list (string * Qc) :=
  [("Текущий баланс:", balance); ("Текущий доход:", income);
   ("Текущий расход:", expenses)].

(** A json module for the examples: a document is the list of its objects,
    each the list of its members. *)
Definition document_json : JsonModule := {|
  text := list (list (string * value));
  json_dump records := map_to_list <$> records;
  json_load doc := Some (list_to_map <$> doc)
|}.

(** An arithmetic for the examples: sums and differences without
    rounding. *)
Definition exact_arithmetic : Arithmetic := {|
  py_sum := foldr Qcplus 0;
  py_sub := Qcminus
|}.






Definition salary : DataFormat.t :=
  DataFormat.Build "2024-01-01" "Доход" (Q2Qc 100) "salary".
Definition food : DataFormat.t :=
  DataFormat.Build "2024-01-02" "Расход" (Q2Qc 40) "food".
Definition rent : DataFormat.t :=
  DataFormat.Build "2024-01-03" "Расход" (Q2Qc (25 # 2)) "rent".

Definition ledger : DataControl.t := DataControl.Build "financial_records.json".

Definition no_files : @world document_json := World document_json ∅ [].

(** The world after the two appends of the spec's scenario. *)
Definition two_records : @world document_json :=
  (DataControl.add_record ledger food (DataControl.add_record ledger salary no_files).2).2.



(** [display_balance] over [ledger], in the arithmetic of the examples. *)
Definition ledger_balance : @io document_json unit :=
  @Main.display_balance document_json exact_arithmetic (Main.Build ledger).

(** The records the store then holds. *)
Definition two_record_list : list record :=
  [DataFormat.dictionary salary; DataFormat.dictionary food].

(** The criteria of the search scenario. *)
Definition date_income : list (string * value) :=
  [("date", VStr "2024-01-01"); ("category", VStr "Доход")].

(** A record of a third category, with an amount that is not a number. *)
Definition transfer : record :=
  <["category" := VStr "Перевод"]> (<["amount" := VStr "n/a"]> ∅).

Definition with_transfer : @world document_json :=
  (DataControl.save_records ledger
     [DataFormat.dictionary salary; transfer; DataFormat.dictionary food] no_files).2.

(** A json module whose texts may fail to parse: [None] is a text that is
    no JSON document. *)
Definition strict_json : JsonModule := {|
  text := option (list (list (string * value)));
  json_dump records := Some (map_to_list <$> (records : list record));
  json_load doc :=
    match doc with
    | Some objects =>
        Some ((list_to_map <$> (objects : list (list (string * value))))
              : list record)
    | None => None
    end
|}.

(** A world whose ledger file holds such a text, beside a file of notes. *)
Definition garbled : @world strict_json :=
  World strict_json
    (<["financial_records.json" := None]> (<["notes.json" := Some []]> ∅)) [].

(** A second store, in another file. *)
Definition notes : DataControl.t := DataControl.Build "notes.json".

(** Criteria whose last key no record has, and whose second key one
    record lacks. *)
Definition income_date_currency : list (string * value) :=
  [("category", VStr "Доход"); ("date", VStr "2030-12-31"); ("currency", VStr "USD")].

(** Criteria whose second key no record has. *)
Definition date_then_currency : list (string * value) :=
  [("date", VStr "2030-12-31"); ("currency", VStr "USD")].

(** ** The terminal *)

(** What the menu layer writes: the prompt of an [input], or the values
    of one [print]. *)
Inductive out : Type :=
  | Prompt (s : string)
  | Line (items : list value).

(** The exceptions of the menu layer: those of the store, and those of
    [float], [int] and [input]. *)
Inductive error : Type :=
  | Py (e : exn)
  | ValueError (s : string)
  | EOFError.

Inductive outcome (A : Type) : Type :=
  | Return (a : A)
  | Throw (e : error).
Arguments Return {A} a.
Arguments Throw {A} e.

(** [float(s)] and [int(s)]: [None] where they raise [ValueError].  A
    string that [float] reads as [inf] or [nan] has no rational and is
    outside this model. *)
Class Builtins : Type := {
  py_float : string -> option Qc;
  py_int : string -> option Z
}.

(** The lines still to be typed, what has been written, and the world of
    files.  [stdout] holds the prompts and the lines of the menu layer;
    the balance report stays in the [console] of the world, where
    [actual_balance] puts it. *)
Record session `{JsonModule} : Type := Session {
  stdin : list string;
  stdout : list out;
  disk : world
}.

Definition act `{JsonModule} (A : Type) : Type := session -> outcome A * session.

Section Terminal.
Context `{JsonModule}.

Global Instance act_ret : MRet act := fun A a s => (Return a, s).
Global Instance act_bind : MBind act := fun A B f m s =>
  match m s with
  | (Return a, s') => f a s'
  | (Throw e, s') => (Throw e, s')
  end.

(** [input(prompt)]: the prompt is written, then a line is read; at the
    end of the input it raises [EOFError]. *)
Definition input (prompt : string) : act string := fun s =>
  match stdin s with
  | [] => (Throw EOFError, Session _ [] (stdout s ++ [Prompt prompt]) (disk s))
  | line :: lines => (Return line, Session _ lines (stdout s ++ [Prompt prompt]) (disk s))
  end.

(** [print(item, ...)] *)
Definition print_line (items : list value) : act unit := fun s =>
  (Return tt, Session _ (stdin s) (stdout s ++ [Line items]) (disk s)).

(** A method of the store, run on the files of the session. *)
Definition run_io {A : Type} (m : io A) : act A := fun s =>
  match m (disk s) with
  | (Ok a, w) => (Return a, Session _ (stdin s) (stdout s) w)
  | (Raise e, w) => (Throw (Py e), Session _ (stdin s) (stdout s) w)
  end.

Definition run_result {A : Type} (r : result A) : act A := fun s =>
  match r with
  | Ok a => (Return a, s)
  | Raise e => (Throw (Py e), s)
  end.

(** A loop over the typed lines, written by recursion on them. *)
Definition on_tty {A : Type}
    (loop : list string -> list out -> outcome A * (list string * list out)) : act A :=
  fun s =>
    let '(r, (lines, written)) := loop (stdin s) (stdout s) in
    (r, Session _ lines written (disk s)).

End Terminal.

(** ** class UserInterface, the methods that read and list *)

Module UI.

(** The first [while True] of [input_record]: each turn is one [input];
    ['1'] and ['2'] choose the category, anything else is answered with a
    message and asked again. *)
Fixpoint category_loop (lines : list string) (written : list out)
    : outcome string * (list string * list out) :=
  let written :=
    written ++ [Prompt "Введите число для выбора категории (1 - Доход, 2 - Расход): "] in
  match lines with
  | [] => (Throw EOFError, ([], written))
  | category_choice :: lines' =>
      if decide (category_choice = "1") then (Return "Доход", (lines', written))
      else if decide (category_choice = "2") then (Return "Расход", (lines', written))
      else
        category_loop lines'
          (written ++ [Line [VStr "Некорректный ввод. Пожалуйста, введите 1 для Дохода или 2 для Расхода."]])
  end.

Section Methods.
Context `{JsonModule} `{Builtins}.

(** The second [while True]: [float(input(...))] raises [ValueError] on a
    text that is no number; a negative amount is answered with a message
    and asked again. *)
Fixpoint amount_loop (lines : list string) (written : list out)
    : outcome Qc * (list string * list out) :=
  let written := written ++ [Prompt "Введите сумму: "] in
  match lines with
  | [] => (Throw EOFError, ([], written))
  | line :: lines' =>
      match py_float line with
      | None => (Throw (ValueError line), (lines', written))
      | Some amount =>
          if decide (0 <= amount) then (Return amount, (lines', written))
          else
            amount_loop lines'
              (written ++ [Line [VStr "Некорректный ввод. Введите положительное число"]])
      end
  end.

Definition input_record : act DataFormat.t :=
  date ← input "Введите дату (гггг-мм-дд): ";
  category ← on_tty category_loop;
  amount ← on_tty amount_loop;
  description ← input "Введите описание: ";
  mret (DataFormat.Build date category amount description).

Definition input_search_criteria : act (list (string * value)) :=
  date ← input "Введите дату для поиска (гггг-мм-дд): ";
  category ← input "Введите категорию для поиска (Доход/Расход): ";
  mret [("date", VStr date); ("category", VStr category)].

(** [for record in records: print('Дата:', record['date'], ...)]: the
    four fields are read before the line is written. *)
Fixpoint display_records (records : list record) : act unit :=
  match records with
  | [] => mret tt
  | record0 :: records' =>
      date ← run_result (getitem record0 "date");
      category ← run_result (getitem record0 "category");
      amount ← run_result (getitem record0 "amount");
      description ← run_result (getitem record0 "description");
      _ ← print_line [VStr "Дата:"; date; VStr "Категория:"; category;
                      VStr "Сумма:"; amount; VStr "Описание:"; description];
      display_records records'
  end.

End Methods.
End UI.

(** ** class Main, the methods behind the menu *)

Module App.
Section Methods.
Context `{JsonModule} `{Arithmetic} `{Builtins}.

Definition display_balance (self : Main.t) : act unit :=
  run_io (Main.display_balance self).

Definition add_record (self : Main.t) : act unit :=
  record0 ← UI.input_record;
  run_io (DataControl.add_record (Main.data_manager self) record0).

Definition display_records (self : Main.t) : act unit :=
  records ← run_io (DataControl.read_file (Main.data_manager self));
  UI.display_records records.

Definition changing_record (self : Main.t) : act unit :=
  records ← run_io (DataControl.read_file (Main.data_manager self));
  match records with
  | [] => print_line [VStr "Нет доступных записей для изменения."]
  | _ :: _ =>
      _ ← UI.display_records records;
      line ← input "Введите номер записи, которую хотите изменить: ";
      match py_int line with
      | None => fun s => (Throw (ValueError line), s)
      | Some number =>
          let index := (number - 1)%Z in
          if bool_decide (0 ≤ index < Z.of_nat (length records))%Z then
            updated_record ← UI.input_record;
            success ← run_io (DataControl.update_record (Main.data_manager self)
                                index updated_record);
            if success : bool
            then print_line [VStr "Запись успешно изменена."]
            else print_line [VStr "Не удалось изменить запись."]
          else print_line [VStr "Некорректный номер записи."]
      end
  end.

Definition search_records (self : Main.t) : act unit :=
  search_criteria ← UI.input_search_criteria;
  matching_records ← run_io (DataControl.search_records (Main.data_manager self)
                               search_criteria);
  match matching_records with
  | _ :: _ => UI.display_records matching_records
  | [] => print_line [VStr "По вашему запросу ничего не найдено."]
  end.

Definition menu : string :=
  "Выберите действие: 1 - Вывод баланса, 2 - Добавление записи, 3 - Вывод записей, 4 - Изменение записи, 5 - Поиск по записям, 0- Выход ".

(** What one turn of the menu runs for a choice other than ['0']. *)
Definition dispatch (self : Main.t) (choice : string) : act unit :=
  if decide (choice = "1") then display_balance self
  else if decide (choice = "2") then add_record self
  else if decide (choice = "3") then display_records self
  else if decide (choice = "4") then changing_record self
  else if decide (choice = "5") then search_records self
  else print_line [VStr "Некорректный ввод"].

(** The [while True] of [start_application], for at most [turns] turns:
    [None] when the turns run out before the loop ends. *)
Fixpoint menu_loop (turns : nat) (self : Main.t) (s : session)
    : option (outcome unit * session) :=
  match turns with
  | O => None
  | S turns' =>
      match input menu s with
      | (Throw e, s1) => Some (Throw e, s1)
      | (Return choice, s1) =>
          if decide (choice = "0") then Some (Return tt, s1)
          else
            match dispatch self choice s1 with
            | (Throw e, s2) => Some (Throw e, s2)
            | (Return _, s2) => menu_loop turns' self s2
            end
      end
  end.

(** Every turn reads a line, so one turn more than there are lines is
    enough. *)
Definition start_application (self : Main.t) (s : session)
    : option (outcome unit * session) :=
  menu_loop (S (length (stdin s))) self s.

End Methods.
End App.

(** [int] and [float] for the examples: an optional sign and decimal
    digits. *)
Fixpoint digits (s : string) (acc : N) : option N :=
  match s with
  | EmptyString => Some acc
  | String c s' =>
      match Ascii.is_nat c with
      | Some d => digits s' (10 * acc + N.of_nat d)%N
      | None => None
      end
  end.

Definition decimal (s : string) : option Z :=
  match s with
  | EmptyString => None
  | String c s' =>
      if decide (String c EmptyString = "-") then
        match s' with
        | EmptyString => None
        | _ => Z.opp <$> (Z.of_N <$> digits s' 0)
        end
      else Z.of_N <$> digits s 0
  end.

Definition decimal_builtins : Builtins := {|
  py_float s := Qc_of_Z <$> decimal s;
  py_int := decimal
|}.

(** A record as [input_record] can return it: one of the two categories
    and an amount that is not negative. *)
Definition entered (d : DataFormat.t) : Prop :=
  (DataFormat.category d = "Доход" \/ DataFormat.category d = "Расход")
  /\ 0 <= DataFormat.amount d.

(** A ledger all of whose records were entered through the menu. *)
Definition ledger_of `{JsonModule} (self : DataControl.t) (w : world)
    (entries : list DataFormat.t) : Prop :=
  stores self w (DataFormat.dictionary <$> entries) /\ Forall entered entries.

(** The line [display_records] writes for a record. *)
Definition record_line (d : DataFormat.t) : out :=
  Line [VStr "Дата:"; VStr (DataFormat.date d);
        VStr "Категория:"; VStr (DataFormat.category d);
        VStr "Сумма:"; VNum (DataFormat.amount d);
        VStr "Описание:"; VStr (DataFormat.description d)].

(** A session at the keyboard of [two_records]. *)
Definition typing (lines : list string) : @session document_json :=
  Session document_json lines [] two_records.

(** [m] keeps the invariant [I] of sessions, however it ends, and what
    it returns satisfies [Q]. *)
Definition keeps `{JsonModule} {A : Type} (I : session -> Prop) (m : act A)
    (Q : A -> Prop) : Prop :=
  forall s, I s ->
    I (m s).2 /\ match (m s).1 with Return a => Q a | Throw _ => True end.

(** An invariant that survives reading lines and writing output. *)
Definition tty_closed `{JsonModule} (I : session -> Prop) : Prop :=
  forall s lines written,
    I s -> lines `suffix_of` stdin s -> I (Session _ lines written (disk s)).

(** An invariant that survives what the menu does to the files of
    [self]: a change of the console, the appending of an entered record,
    the update with an entered record. *)
Definition store_closed `{JsonModule} (self : DataControl.t) (I : session -> Prop)
    : Prop :=
  forall s w',
    I s ->
    files w' = files (disk s)
    \/ (exists d, entered d /\ w' = (DataControl.add_record self d (disk s)).2)
    \/ (exists d index, entered d
                        /\ w' = (DataControl.update_record self index d (disk s)).2) ->
    I (Session _ (stdin s) (stdout s) w').

(** The ledger holds entered records, at least [n] of them. *)
Definition ledger_at_least `{JsonModule} (self : DataControl.t) (n : nat)
    (s : session) : Prop :=
  exists entries, ledger_of self (disk s) entries /\ (n <= length entries)%nat.

(** What [input_record] writes: its four prompts and its two answers to
    a rejected line. *)
Definition date_prompt : out := Prompt "Введите дату (гггг-мм-дд): ".
Definition category_prompt : out :=
  Prompt "Введите число для выбора категории (1 - Доход, 2 - Расход): ".
Definition category_retry : out :=
  Line [VStr "Некорректный ввод. Пожалуйста, введите 1 для Дохода или 2 для Расхода."].
Definition amount_prompt : out := Prompt "Введите сумму: ".
Definition amount_retry : out :=
  Line [VStr "Некорректный ввод. Введите положительное число"].
Definition description_prompt : out := Prompt "Введите описание: ".

(** The prompt of [changing_record] and the two prompts of
    [input_search_criteria]. *)
Definition number_prompt : out :=
  Prompt "Введите номер записи, которую хотите изменить: ".
Definition search_prompts : list out :=
  [Prompt "Введите дату для поиска (гггг-мм-дд): ";
   Prompt "Введите категорию для поиска (Доход/Расход): "].

(** The first of the four fields, in the order [display_records] reads
    them, that a record does not have. *)
Definition first_missing (r : record) : option string :=
  find (fun key => bool_decide (r !! key = None))
    ["date"; "category"; "amount"; "description"].

(** The application over [ledger], the two entries of [two_records], and
    a record typed at the keyboard. *)
Definition desk : Main.t := Main.Build ledger.
Definition two_entries : list DataFormat.t := [salary; food].
Definition gift : DataFormat.t :=
  DataFormat.Build "2024-02-02" "Доход" (Qc_of_Z 15) "gift".

(** A stored object without a date. *)
Definition undated : record := <["category" := VStr "Доход"]> ∅.

(** A ledger whose second object has a category and nothing else. *)
Definition with_undated : @world document_json :=
  (DataControl.save_records ledger [DataFormat.dictionary salary; undated] no_files).2.

(** ** Reading and writing the file *)

Section Store.
Context `{JsonModule}.
Implicit Types (self : DataControl.t) (w : world) (R : list record).

Lemma read_file_missing self w :
  files w !! DataControl.filename self = None ->
  DataControl.read_file self w = (Ok [], w).
Proof.
  intros Hnone. unfold DataControl.read_file, mbind, io_bind, os_path_exists.
  rewrite Hnone, bool_decide_eq_false_2; [done | by intros [? ?]].
Qed.

Lemma read_file_present self w content :
  files w !! DataControl.filename self = Some content ->
  DataControl.read_file self w =
    (match json_load content with
     | Some R => Ok R
     | None => Raise JSONDecodeError
     end, w).
Proof.
  intros Hsome. unfold DataControl.read_file, mbind, io_bind, os_path_exists.
  rewrite Hsome, bool_decide_eq_true_2 by eauto.
  unfold open_r_json_load. rewrite Hsome. by destruct (json_load content).
Qed.

(** Reading never changes the world, whatever it returns. *)
Lemma read_file_world self w : (DataControl.read_file self w).2 = w.
Proof.
  destruct (files w !! DataControl.filename self) as [content|] eqn:Hf.
  - by rewrite (read_file_present _ _ _ Hf).
  - by rewrite (read_file_missing _ _ Hf).
Qed.

Lemma read_file_eta self w :
  DataControl.read_file self w = ((DataControl.read_file self w).1, w).
Proof. rewrite <- (read_file_world self w) at 3. by destruct (DataControl.read_file self w). Qed.

Lemma save_records_world self R w :
  DataControl.save_records self R w =
    (Ok tt, World _ (<[DataControl.filename self := json_dump R]> (files w)) (console w)).
Proof. reflexivity. Qed.

Lemma stores_after_save self R w :
  json_round_trip -> stores self (DataControl.save_records self R w).2 R.
Proof.
  intros Hjson. unfold stores. rewrite save_records_world. simpl.
  erewrite read_file_present by apply lookup_insert_eq.
  by rewrite Hjson.
Qed.

(** Running a method on a store that holds [R]. *)
Lemma bind_read_file {A} self w R (k : list record -> io A) :
  stores self w R -> (DataControl.read_file self ≫= k) w = k R w.
Proof. intros HR. unfold mbind, io_bind. by rewrite HR. Qed.

End Store.

(** ** Searching *)

Section Search.
Implicit Types (r : record) (criteria : list (string * value)).

Lemma satisfies_cons r key v criteria :
  satisfies ((key, v) :: criteria) r <-> r !! key = Some v /\ satisfies criteria r.
Proof. unfold satisfies. by rewrite Forall_cons_iff. Qed.

Lemma all_match_present r criteria :
  keys_present criteria r ->
  DataControl.all_match r criteria = Ok (bool_decide (satisfies criteria r)).
Proof.
  induction criteria as [|[key v] criteria IH]; intros Hkeys.
  - reflexivity.
  - apply Forall_cons_iff in Hkeys as [[x Hx] Hkeys]. simpl in Hx.
    cbn [DataControl.all_match]. unfold getitem. rewrite Hx. cbn.
    destruct (decide (x = v)) as [->|Hxv].
    + rewrite (bool_decide_eq_true_2 (v = v)) by done.
      rewrite IH by done. f_equal. apply bool_decide_ext.
      rewrite satisfies_cons. tauto.
    + rewrite (bool_decide_eq_false_2 (x = v)) by done.
      f_equal. symmetry. apply bool_decide_eq_false_2.
      rewrite satisfies_cons. intros [Hv _]. congruence.
Qed.

(** The first key the record lacks, reached with every earlier pair
    equal, raises. *)
Lemma all_match_absent r criteria1 key v criteria2 :
  satisfies criteria1 r -> r !! key = None ->
  DataControl.all_match r (criteria1 ++ (key, v) :: criteria2) = Raise (KeyError key).
Proof.
  intros Hsat Hnone. induction criteria1 as [|[key1 v1] criteria1 IH].
  - cbn. unfold getitem. by rewrite Hnone.
  - apply satisfies_cons in Hsat as [H1 Hsat].
    cbn. unfold getitem. rewrite H1. cbn.
    rewrite bool_decide_eq_true_2 by done. by apply IH.
Qed.

Lemma search_loop_filter criteria R acc :
  Forall (keys_present criteria) R ->
  DataControl.search_loop criteria R acc = Ok (acc ++ filter (satisfies criteria) R).
Proof.
  revert acc. induction R as [|r R IH]; intros acc HR.
  - simpl. by rewrite app_nil_r.
  - apply Forall_cons_iff in HR as [Hr HR].
    cbn [DataControl.search_loop]. rewrite all_match_present by done. cbn.
    destruct (decide (satisfies criteria r)) as [Hsat|Hsat].
    + rewrite bool_decide_eq_true_2 by done.
      rewrite IH by done. by rewrite <- app_assoc.
    + rewrite bool_decide_eq_false_2 by done. by apply IH.
Qed.

End Search.

(** ** Summing amounts *)

Section Balance.
Context `{Arithmetic}.
Implicit Types (r : record) (R : list record) (cat : string) (acc : list Qc).

Lemma well_formed_fields r :
  well_formed r ->
  exists c a, r !! "category" = Some c /\ r !! "amount" = Some (VNum a).
Proof.
  unfold well_formed. intros Hwf.
  destruct (r !! "category") as [c|]; [|done].
  destruct (r !! "amount") as [[s|a]|]; try done. eauto.
Qed.

Lemma dictionary_well_formed (d : DataFormat.t) :
  well_formed (DataFormat.dictionary d).
Proof. done. Qed.

Lemma well_formed_summable cat r : well_formed r -> summable cat r.
Proof.
  intros Hwf. destruct (well_formed_fields r Hwf) as (c & a & Hc & Ha).
  exists c. split; [done|]. intros _. by exists a.
Qed.


Lemma amounts_cons_in cat r R a :
  has_category cat r -> r !! "amount" = Some (VNum a) ->
  amounts cat (r :: R) = a :: amounts cat R.
Proof.
  intros Hcat Ha. unfold amounts. rewrite filter_cons_True by done.
  cbn. unfold amount_of at 1. by rewrite Ha.
Qed.

Lemma amounts_cons_out cat r R :
  ~ has_category cat r -> amounts cat (r :: R) = amounts cat R.
Proof. intros Hcat. unfold amounts. by rewrite filter_cons_False. Qed.

(** Past summable records, [sum] has taken their amounts of category
    [cat], in order, and goes on with the rest. *)
Lemma sum_amounts_after cat R1 R acc :
  Forall (summable cat) R1 ->
  Main.sum_amounts cat (R1 ++ R) acc = Main.sum_amounts cat R (acc ++ amounts cat R1).
Proof.
  revert acc. induction R1 as [|r R1 IH]; intros acc HR1.
  - cbn [List.app]. unfold amounts. cbn. by rewrite app_nil_r.
  - apply Forall_cons_iff in HR1 as [(c & Hc & Ha) HR1].
    destruct (decide (c = VStr cat)) as [->|Hne].
    + destruct Ha as [a Ha]; [done|].
      rewrite (amounts_cons_in cat r R1 a) by done.
      cbn [List.app Main.sum_amounts]. unfold getitem. rewrite Hc, Ha. cbn.
      rewrite (bool_decide_eq_true_2 (VStr cat = VStr cat)) by done.
      rewrite IH by done. by rewrite <- app_assoc.
    + rewrite amounts_cons_out by (unfold has_category; congruence).
      cbn [List.app Main.sum_amounts]. unfold getitem. rewrite Hc. cbn.
      rewrite (bool_decide_eq_false_2 (c = VStr cat)) by done.
      by apply IH.
Qed.



(** A record of another category is passed over, whatever else the list
    holds and whatever the sum does there. *)
Lemma sum_amounts_skip cat R1 r R2 acc c :
  r !! "category" = Some c -> c <> VStr cat ->
  Main.sum_amounts cat (R1 ++ r :: R2) acc = Main.sum_amounts cat (R1 ++ R2) acc.
Proof.
  intros Hc Hne. revert acc. induction R1 as [|r1 R1 IH]; intros acc.
  - cbn. unfold getitem. rewrite Hc. cbn.
    by rewrite (bool_decide_eq_false_2 (c = VStr cat)) by done.
  - cbn. destruct (getitem r1 "category") as [c1|e]; cbn; [|done].
    destruct (bool_decide (c1 = VStr cat)); [|by apply IH].
    destruct (getitem r1 "amount") as [a1|e]; cbn; [|done].
    destruct (sum_item acc a1) as [acc'|e]; cbn; [|done].
    by apply IH.
Qed.

End Balance.

Section Display.
Context `{JsonModule} `{Arithmetic}.

(** What [display_balance] does on a store that holds [R]. *)
Lemma display_balance_stores (self : Main.t) (w : world) (R : list record) :
  stores (Main.data_manager self) w R ->
  Main.display_balance self w =
    match Main.sum_amounts "Доход" R [] with
    | Raise e => (Raise e, w)
    | Ok income =>
        match Main.sum_amounts "Расход" R [] with
        | Raise e => (Raise e, w)
        | Ok expenses =>
            (Ok tt, World _ (files w)
                      (console w ++ balance_lines (py_sub income expenses)
                                      income expenses))
        end
    end.
Proof.
  intros HR. unfold Main.display_balance. rewrite (bind_read_file _ _ R) by done.
  unfold mbind, io_bind, lift.
  destruct (Main.sum_amounts "Доход" R []) as [income|e]; [|done].
  destruct (Main.sum_amounts "Расход" R []) as [expenses|e]; [|done].
  unfold UserInterface.actual_balance, mbind, io_bind, print, balance_lines. cbn.
  by rewrite <- !app_assoc.
Qed.

End Display.

(** ** The record store *)

Section RecordStore.
Context `{JsonModule}.
Implicit Types (self : DataControl.t) (w : world) (R : list record).
Implicit Types (r : DataFormat.t) (criteria : list (string * value)).

(** C1. On a store that holds [R], and for criteria whose keys are fields
    of every record, [search_records] returns the records of [R], in
    order, that agree with the criteria on every key; with no criteria at
    all it returns [R]. *)
Theorem search_records_filter self w R criteria :
  stores self w R ->
  (Forall (keys_present criteria) R ->
   DataControl.search_records self criteria w =
     (Ok (filter (satisfies criteria) R), w))
  /\ DataControl.search_records self [] w = (Ok R, w).
Proof.
  intros HR. unfold DataControl.search_records.
  rewrite !(bind_read_file _ _ R) by done. unfold lift. split.
  - intros Hkeys. by rewrite search_loop_filter.
  - rewrite search_loop_filter by (apply Forall_true; constructor).
    cbn. do 2 f_equal. clear HR. induction R as [|r0 R IH]; [done|].
    rewrite filter_cons_True by constructor. by f_equal.
Qed.

(** C2. Whatever the file held before, after [save_records R] the store
    holds [R]: reading gives back exactly what was saved. *)
Theorem save_then_load (Hjson : json_round_trip) self R w :
  exists w',
    DataControl.save_records self R w = (Ok tt, w')
    /\ DataControl.read_file self w' = (Ok R, w')
    /\ (_ ← DataControl.save_records self R; DataControl.read_file self) w
       = (Ok R, w').
Proof.
  pose proof (stores_after_save self R w Hjson) as HR. unfold stores in HR.
  eexists. split; [apply save_records_world|]. split; [exact HR|].
  unfold mbind, io_bind. rewrite save_records_world. exact HR.
Qed.

(** C3. On a store that holds [R], [add_record r] succeeds, leaves the
    store holding [R] followed by the dictionary of [r], and does what
    saving [R ++ [r]] does. *)
Theorem add_record_appends (Hjson : json_round_trip) self w R r :
  stores self w R ->
  exists w',
    DataControl.add_record self r w = (Ok tt, w')
    /\ stores self w' (R ++ [DataFormat.dictionary r])
    /\ DataControl.add_record self r w =
         DataControl.save_records self (R ++ [DataFormat.dictionary r]) w.
Proof.
  intros HR.
  assert (DataControl.add_record self r w =
          DataControl.save_records self (R ++ [DataFormat.dictionary r]) w) as Hadd.
  { unfold DataControl.add_record. by rewrite (bind_read_file _ _ R). }
  eexists. split; [rewrite Hadd; apply save_records_world|]. split; [|done].
  apply (stores_after_save self _ w Hjson).
Qed.

(** C4. On a store that holds [R], updating at an index inside
    [0 <= index < len R] returns [True] and leaves a store of the same
    length that holds the new record at that index and the old records
    everywhere else. *)
Theorem update_record_in_range (Hjson : json_round_trip) self w R index r :
  stores self w R ->
  (0 <= index < Z.of_nat (length R))%Z ->
  exists w' R',
    DataControl.update_record self index r w = (Ok true, w')
    /\ stores self w' R'
    /\ length R' = length R
    /\ R' !! Z.to_nat index = Some (DataFormat.dictionary r)
    /\ forall j : nat, j <> Z.to_nat index -> R' !! j = R !! j.
Proof.
  intros HR Hindex.
  exists (DataControl.save_records self
            (<[Z.to_nat index := DataFormat.dictionary r]> R) w).2,
         (<[Z.to_nat index := DataFormat.dictionary r]> R).
  split; [|split; [|split; [|split]]].
  - unfold DataControl.update_record. rewrite (bind_read_file _ _ R) by done.
    by rewrite bool_decide_eq_true_2 by done.
  - by apply stores_after_save.
  - apply length_insert.
  - apply list_lookup_insert_eq. lia.
  - intros j Hj. by apply list_lookup_insert_ne.
Qed.

(** C5. On a store that holds [R], updating at an index outside
    [0 <= index < len R], negative ones included, returns [False] without
    raising and changes nothing: the store still holds [R]. *)
Theorem update_record_out_of_range self w R index r :
  stores self w R ->
  (index < 0 \/ Z.of_nat (length R) <= index)%Z ->
  DataControl.update_record self index r w = (Ok false, w)
  /\ DataControl.read_file self (DataControl.update_record self index r w).2
     = (Ok R, w).
Proof.
  intros HR Hindex.
  assert (DataControl.update_record self index r w = (Ok false, w)) as Hupd.
  { unfold DataControl.update_record. rewrite (bind_read_file _ _ R) by done.
    by rewrite bool_decide_eq_false_2 by lia. }
  by rewrite Hupd.
Qed.

(** C7. When the file does not exist, [read_file] returns the empty list
    and raises nothing. *)
Theorem read_file_no_file self w :
  files w !! DataControl.filename self = None ->
  DataControl.read_file self w = (Ok [], w).
Proof. apply read_file_missing. Qed.

(** C8. There are a store with a record in it and criteria with a key no
    record has for which [search_records] raises [KeyError] on that key
    and returns no list. *)
Theorem search_absent_key_raises (Hjson : json_round_trip) :
  exists self w R criteria key,
    stores self w R
    /\ R <> []
    /\ key ∈ criteria.*1
    /\ Forall (fun r0 : record => r0 !! key = None) R
    /\ DataControl.search_records self criteria w = (Raise (KeyError key), w).
Proof.
  set (R := [DataFormat.dictionary salary]).
  set (w := (DataControl.save_records ledger R (World _ ∅ [])).2).
  assert (stores ledger w R) as HR by by apply stores_after_save.
  exists ledger, w, R, [("currency", VStr "USD")], "currency".
  split; [done|]. split; [done|]. split; [set_solver|]. split.
  - by repeat constructor.
  - unfold DataControl.search_records. by rewrite (bind_read_file _ _ R).
Qed.

(** C10. [search_records] writes nothing: whatever the criteria and
    whatever it returns or raises, the world after it is the world before
    it, so reading afterwards gives what reading before gave. *)
Theorem search_records_read_only self criteria w :
  (DataControl.search_records self criteria w).2 = w
  /\ DataControl.read_file self (DataControl.search_records self criteria w).2
     = DataControl.read_file self w.
Proof.
  assert ((DataControl.search_records self criteria w).2 = w) as Hw.
  { unfold DataControl.search_records, mbind, io_bind, lift.
    rewrite read_file_eta. by destruct (DataControl.read_file self w).1. }
  by rewrite Hw.
Qed.

End RecordStore.

(** ** The balance *)

Section BalanceReport.
Context `{JsonModule} `{Arithmetic}.
Implicit Types (self : Main.t) (w : world) (R : list record).


(** C9. A record whose category is neither "Доход" nor "Расход" adds
    nothing to either sum and is not rejected: with it or without it the
    two sums, the result of [display_balance] and what it prints are the
    same. *)
Theorem other_category_ignored self w w' R1 (r : record) R2 c :
  r !! "category" = Some c ->
  c <> VStr "Доход" ->
  c <> VStr "Расход" ->
  (forall acc, Main.sum_amounts "Доход" (R1 ++ r :: R2) acc
               = Main.sum_amounts "Доход" (R1 ++ R2) acc)
  /\ (forall acc, Main.sum_amounts "Расход" (R1 ++ r :: R2) acc
                  = Main.sum_amounts "Расход" (R1 ++ R2) acc)
  /\ (stores (Main.data_manager self) w (R1 ++ r :: R2) ->
      stores (Main.data_manager self) w' (R1 ++ R2) ->
      console w = console w' ->
      (Main.display_balance self w).1 = (Main.display_balance self w').1
      /\ console (Main.display_balance self w).2
         = console (Main.display_balance self w').2).
Proof.
  intros Hc Hincome Hexpense.
  assert (forall cat acc, c <> VStr cat ->
            Main.sum_amounts cat (R1 ++ r :: R2) acc
            = Main.sum_amounts cat (R1 ++ R2) acc) as Hskip.
  { intros cat acc Hne. by apply (sum_amounts_skip cat R1 r R2 acc c). }
  split; [by intros; apply Hskip|]. split; [by intros; apply Hskip|].
  intros HR HR' Hconsole.
  rewrite (display_balance_stores self w _ HR), (display_balance_stores self w' _ HR').
  rewrite !Hskip by done.
  destruct (Main.sum_amounts "Доход" (R1 ++ R2) []) as [income|e]; [|done].
  destruct (Main.sum_amounts "Расход" (R1 ++ R2) []) as [expenses|e]; [|done].
  cbn. by rewrite Hconsole.
Qed.

End BalanceReport.

(** ** The scenarios of the specification, run on [document_json] *)

Lemma document_json_round_trip : @json_round_trip document_json.
Proof.
  intros R. cbn. f_equal. induction R as [|r R IH]; cbn; [done|].
  f_equal; [apply list_to_map_to_list | done].
Qed.

Lemma search_records_filter_witness :
  stores ledger two_records two_record_list
  /\ Forall (keys_present date_income) two_record_list
  /\ DataControl.search_records ledger date_income two_records
     = (Ok [DataFormat.dictionary salary], two_records)
  /\ DataControl.search_records ledger [] two_records
     = (Ok two_record_list, two_records).
Proof.
  assert (stores ledger two_records two_record_list) as HR by reflexivity.
  assert (Forall (keys_present date_income) two_record_list) as Hkeys
    by (repeat constructor; by eexists).
  destruct (search_records_filter ledger two_records two_record_list date_income HR)
    as [Hsearch Hall].
  split; [exact HR|]. split; [exact Hkeys|]. split; [|exact Hall].
  rewrite (Hsearch Hkeys). reflexivity.
Defined.

Lemma save_then_load_witness :
  @json_round_trip document_json
  /\ exists w',
       DataControl.save_records ledger two_record_list no_files = (Ok tt, w')
       /\ DataControl.read_file ledger w' = (Ok two_record_list, w')
       /\ (_ ← DataControl.save_records ledger two_record_list;
           DataControl.read_file ledger) no_files
          = (Ok two_record_list, w').
Proof.
  split; [exact document_json_round_trip|].
  exact (save_then_load document_json_round_trip ledger two_record_list no_files).
Defined.

Lemma add_record_appends_witness :
  stores ledger two_records two_record_list
  /\ exists w',
       DataControl.add_record ledger rent two_records = (Ok tt, w')
       /\ stores ledger w' (two_record_list ++ [DataFormat.dictionary rent])
       /\ DataControl.add_record ledger rent two_records
          = DataControl.save_records ledger
              (two_record_list ++ [DataFormat.dictionary rent]) two_records.
Proof.
  assert (stores ledger two_records two_record_list) as HR by reflexivity.
  split; [exact HR|].
  exact (add_record_appends document_json_round_trip ledger two_records
           two_record_list rent HR).
Defined.

Lemma update_record_in_range_witness :
  stores ledger two_records two_record_list
  /\ (0 <= 1 < Z.of_nat (length two_record_list))%Z
  /\ exists w' R',
       DataControl.update_record ledger 1 rent two_records = (Ok true, w')
       /\ stores ledger w' R'
       /\ length R' = length two_record_list
       /\ R' !! Z.to_nat 1 = Some (DataFormat.dictionary rent)
       /\ forall j : nat, j <> Z.to_nat 1 -> R' !! j = two_record_list !! j.
Proof.
  assert (stores ledger two_records two_record_list) as HR by reflexivity.
  assert (0 <= 1 < Z.of_nat (length two_record_list))%Z as Hindex by (simpl; lia).
  split; [exact HR|]. split; [exact Hindex|].
  exact (update_record_in_range document_json_round_trip ledger two_records
           two_record_list 1 rent HR Hindex).
Defined.

Lemma update_record_out_of_range_witness :
  stores ledger two_records two_record_list
  /\ (Z.of_nat (length two_record_list) <= 5)%Z
  /\ DataControl.update_record ledger 5 rent two_records = (Ok false, two_records)
  /\ DataControl.read_file ledger
       (DataControl.update_record ledger 5 rent two_records).2
     = (Ok two_record_list, two_records).
Proof.
  assert (stores ledger two_records two_record_list) as HR by reflexivity.
  assert (Z.of_nat (length two_record_list) <= 5)%Z as Hindex by (simpl; lia).
  split; [exact HR|]. split; [exact Hindex|].
  exact (update_record_out_of_range ledger two_records two_record_list 5 rent HR
           (or_intror Hindex)).
Defined.

Lemma read_file_no_file_witness :
  files no_files !! DataControl.filename ledger = None
  /\ DataControl.read_file ledger no_files = (Ok [], no_files).
Proof.
  assert (files no_files !! DataControl.filename ledger = None) as Hnone by reflexivity.
  split; [exact Hnone|]. exact (read_file_no_file ledger no_files Hnone).
Defined.

Lemma search_absent_key_raises_witness :
  @json_round_trip document_json
  /\ exists self (w : @world document_json) R criteria key,
       stores self w R
       /\ R <> []
       /\ key ∈ criteria.*1
       /\ Forall (fun r0 : record => r0 !! key = None) R
       /\ DataControl.search_records self criteria w = (Raise (KeyError key), w).
Proof.
  split; [exact document_json_round_trip|].
  exact (search_absent_key_raises document_json_round_trip).
Defined.


Lemma other_category_ignored_witness :
  transfer !! "category" = Some (VStr "Перевод")
  /\ stores ledger with_transfer
       ([DataFormat.dictionary salary] ++ transfer :: [DataFormat.dictionary food])
  /\ stores ledger two_records
       ([DataFormat.dictionary salary] ++ [DataFormat.dictionary food])
  /\ (ledger_balance with_transfer).1
     = (ledger_balance two_records).1
  /\ console (ledger_balance with_transfer).2
     = console (ledger_balance two_records).2.
Proof.
  assert (transfer !! "category" = Some (VStr "Перевод")) as Hc by reflexivity.
  assert (stores ledger with_transfer
            ([DataFormat.dictionary salary] ++ transfer :: [DataFormat.dictionary food]))
    as HR by reflexivity.
  assert (stores ledger two_records
            ([DataFormat.dictionary salary] ++ [DataFormat.dictionary food]))
    as HR' by reflexivity.
  split; [exact Hc|]. split; [exact HR|]. split; [exact HR'|].
  refine (proj2 (proj2 (@other_category_ignored document_json exact_arithmetic
                          (Main.Build ledger) with_transfer two_records
                          [DataFormat.dictionary salary] transfer
                          [DataFormat.dictionary food] (VStr "Перевод") Hc _ _))
            HR HR' eq_refl); discriminate.
Defined.

(** ** More on the record store *)

Section StoreFacts.
Context `{JsonModule}.
Implicit Types (self : DataControl.t) (w : world) (R : list record).
Implicit Types (r : DataFormat.t).

Lemma add_record_world self w R r :
  stores self w R ->
  DataControl.add_record self r w =
    DataControl.save_records self (R ++ [DataFormat.dictionary r]) w.
Proof. intros HR. unfold DataControl.add_record. by rewrite (bind_read_file _ _ R). Qed.

Lemma update_record_world self w R index r :
  stores self w R ->
  (0 <= index < Z.of_nat (length R))%Z ->
  DataControl.update_record self index r w =
    (Ok true,
     (DataControl.save_records self
        (<[Z.to_nat index := DataFormat.dictionary r]> R) w).2).
Proof.
  intros HR Hindex. unfold DataControl.update_record.
  rewrite (bind_read_file _ _ R) by done.
  by rewrite bool_decide_eq_true_2 by done.
Qed.

Lemma update_record_outside self w R index r :
  stores self w R ->
  ~ (0 <= index < Z.of_nat (length R))%Z ->
  DataControl.update_record self index r w = (Ok false, w).
Proof.
  intros HR Hindex. unfold DataControl.update_record.
  rewrite (bind_read_file _ _ R) by done.
  by rewrite bool_decide_eq_false_2 by done.
Qed.

Lemma read_file_malformed self w content :
  files w !! DataControl.filename self = Some content ->
  json_load content = None ->
  DataControl.read_file self w = (Raise JSONDecodeError, w).
Proof. intros Hf Hload. rewrite (read_file_present _ _ _ Hf). by rewrite Hload. Qed.

Lemma bind_read_file_raise {A} self w e (k : list record -> io A) :
  DataControl.read_file self w = (Raise e, w) ->
  (DataControl.read_file self ≫= k) w = (Raise e, w).
Proof. intros HR. unfold mbind, io_bind. by rewrite HR. Qed.

(** What [read_file] returns depends on the file of [self] alone. *)
Lemma read_file_local self w1 w2 :
  files w1 !! DataControl.filename self = files w2 !! DataControl.filename self ->
  (DataControl.read_file self w1).1 = (DataControl.read_file self w2).1.
Proof.
  intros Heq.
  destruct (files w2 !! DataControl.filename self) as [content|] eqn:Hf.
  - by rewrite (read_file_present _ _ _ Heq), (read_file_present _ _ _ Hf).
  - by rewrite (read_file_missing _ _ Heq), (read_file_missing _ _ Hf).
Qed.

(** Every method of [DataControl] leaves behind either the world it was
    given or that world with the file of [self] rewritten. *)
Lemma save_records_files self R w path :
  path <> DataControl.filename self ->
  files (DataControl.save_records self R w).2 !! path = files w !! path.
Proof. intros Hpath. rewrite save_records_world. cbn. by rewrite lookup_insert_ne. Qed.

Lemma add_record_cases self r w :
  DataControl.add_record self r w = (Raise JSONDecodeError, w)
  \/ exists R, stores self w R /\
       DataControl.add_record self r w =
         DataControl.save_records self (R ++ [DataFormat.dictionary r]) w.
Proof.
  destruct (files w !! DataControl.filename self) as [content|] eqn:Hf.
  - destruct (json_load content) as [R|] eqn:Hload.
    + right. exists R. assert (stores self w R) as HR.
      { unfold stores. rewrite (read_file_present _ _ _ Hf). by rewrite Hload. }
      split; [done|]. by apply add_record_world.
    + left. unfold DataControl.add_record. apply bind_read_file_raise.
      by apply (read_file_malformed _ _ content).
  - right. exists []. assert (stores self w []) as HR by by apply read_file_missing.
    split; [done|]. by apply add_record_world.
Qed.

Lemma update_record_cases self index r w :
  DataControl.update_record self index r w = (Raise JSONDecodeError, w)
  \/ DataControl.update_record self index r w = (Ok false, w)
  \/ exists R, stores self w R /\ (0 <= index < Z.of_nat (length R))%Z /\
       DataControl.update_record self index r w =
         (Ok true,
          (DataControl.save_records self
             (<[Z.to_nat index := DataFormat.dictionary r]> R) w).2).
Proof.
  assert (forall R, stores self w R ->
            DataControl.update_record self index r w = (Ok false, w)
            \/ exists R, stores self w R /\ (0 <= index < Z.of_nat (length R))%Z /\
                 DataControl.update_record self index r w =
                   (Ok true,
                    (DataControl.save_records self
                       (<[Z.to_nat index := DataFormat.dictionary r]> R) w).2)) as Hcases.
  { intros R HR. destruct (decide (0 <= index < Z.of_nat (length R))%Z) as [Hin|Hout].
    - right. exists R. split; [done|]. split; [done|]. by apply update_record_world.
    - left. by apply (update_record_outside _ _ R). }
  destruct (files w !! DataControl.filename self) as [content|] eqn:Hf.
  - destruct (json_load content) as [R|] eqn:Hload.
    + right. apply (Hcases R). unfold stores.
      rewrite (read_file_present _ _ _ Hf). by rewrite Hload.
    + left. unfold DataControl.update_record. apply bind_read_file_raise.
      by apply (read_file_malformed _ _ content).
  - right. apply (Hcases []). by apply read_file_missing.
Qed.

End StoreFacts.

Section StoreProperties.
Context `{JsonModule} `{Arithmetic}.
Implicit Types (self : DataControl.t) (w : world) (R : list record).
Implicit Types (r : DataFormat.t).

(** X1. A file that exists but does not parse makes every operation raise
    [JSONDecodeError] and leaves the world, the file included, as it was:
    nothing is written over the unreadable text. *)
Theorem malformed_file_raises self w content r index criteria :
  files w !! DataControl.filename self = Some content ->
  json_load content = None ->
  DataControl.read_file self w = (Raise JSONDecodeError, w)
  /\ DataControl.add_record self r w = (Raise JSONDecodeError, w)
  /\ DataControl.update_record self index r w = (Raise JSONDecodeError, w)
  /\ DataControl.search_records self criteria w = (Raise JSONDecodeError, w)
  /\ Main.display_balance (Main.Build self) w = (Raise JSONDecodeError, w).
Proof.
  intros Hf Hload.
  pose proof (read_file_malformed self w content Hf Hload) as Hread.
  split; [done|].
  unfold DataControl.add_record, DataControl.update_record,
    DataControl.search_records, Main.display_balance. cbn [Main.data_manager].
  by rewrite !(bind_read_file_raise self w JSONDecodeError).
Qed.

(** X4. With no file yet: adding a record creates the file with that record
    alone; updating returns [False] at every index and creates nothing;
    searching returns the empty list for any criteria, absent keys
    included. *)
Theorem missing_file_behaviour (Hjson : json_round_trip) self w r index criteria :
  files w !! DataControl.filename self = None ->
  (exists w', DataControl.add_record self r w = (Ok tt, w')
              /\ stores self w' [DataFormat.dictionary r])
  /\ DataControl.update_record self index r w = (Ok false, w)
  /\ DataControl.search_records self criteria w = (Ok [], w).
Proof.
  intros Hf. assert (stores self w []) as HR by by apply read_file_missing.
  split; [|split].
  - eexists. split.
    + rewrite (add_record_world self w [] r HR). apply save_records_world.
    + by apply (stores_after_save self [DataFormat.dictionary r] w).
  - apply (update_record_outside self w [] index r HR). cbn. lia.
  - unfold DataControl.search_records. by rewrite (bind_read_file _ _ []).
Qed.

(** X5. Updates compose as assignments to a list do: a second update at the
    same index overrides the first, and updates at two different indices
    give the same world in either order. *)
Theorem update_record_compose (Hjson : json_round_trip) self w R i j r1 r2 :
  stores self w R ->
  (0 <= i < Z.of_nat (length R))%Z ->
  (0 <= j < Z.of_nat (length R))%Z ->
  (_ ← DataControl.update_record self i r1; DataControl.update_record self i r2) w
  = DataControl.update_record self i r2 w
  /\ (i <> j ->
      (_ ← DataControl.update_record self i r1; DataControl.update_record self j r2) w
      = (_ ← DataControl.update_record self j r2; DataControl.update_record self i r1) w).
Proof.
  intros HR Hi Hj.
  assert (forall k k' r r', (0 <= k < Z.of_nat (length R))%Z ->
            (0 <= k' < Z.of_nat (length R))%Z ->
            (_ ← DataControl.update_record self k r;
             DataControl.update_record self k' r') w
            = (Ok true,
               World _ (<[DataControl.filename self :=
                            json_dump (<[Z.to_nat k' := DataFormat.dictionary r']>
                                         (<[Z.to_nat k := DataFormat.dictionary r]> R))]>
                          (files w)) (console w))) as Htwo.
  { intros k k' r r' Hk Hk'. unfold mbind, io_bind.
    rewrite (update_record_world self w R k r HR Hk).
    erewrite update_record_world;
      [|by apply stores_after_save|by rewrite length_insert].
    rewrite !save_records_world. cbn. by rewrite insert_insert_eq. }
  split.
  - rewrite (Htwo i i r1 r2 Hi Hi), list_insert_insert_eq.
    by rewrite (update_record_world self w R i r2 HR Hi).
  - intros Hij. rewrite (Htwo i j r1 r2 Hi Hj), (Htwo j i r2 r1 Hj Hi).
    rewrite list_insert_insert_ne; [done|]. lia.
Qed.

End StoreProperties.

(** ** More on searching *)

Section SearchFacts.
Implicit Types (r : record) (criteria : list (string * value)).

(** When [all] returns, it returns whether the record agrees with the
    criteria. *)
Lemma all_match_ok r criteria b :
  DataControl.all_match r criteria = Ok b -> b = bool_decide (satisfies criteria r).
Proof.
  revert b. induction criteria as [|[key v] criteria IH]; intros b.
  - by intros [= <-].
  - cbn. unfold getitem. destruct (r !! key) as [x|] eqn:Hx; cbn; [|done].
    destruct (decide (x = v)) as [->|Hxv].
    + rewrite (bool_decide_eq_true_2 (v = v)) by done. intros Hrest.
      rewrite (IH b Hrest). apply bool_decide_ext. rewrite satisfies_cons. tauto.
    + rewrite (bool_decide_eq_false_2 (x = v)) by done. intros [= <-].
      symmetry. apply bool_decide_eq_false_2. rewrite satisfies_cons.
      intros [Hv _]. congruence.
Qed.

(** When it raises, it raises [KeyError] on a key of the criteria that
    the record does not have. *)
Lemma all_match_raise r criteria e :
  DataControl.all_match r criteria = Raise e ->
  exists key, e = KeyError key /\ key ∈ criteria.*1 /\ r !! key = None.
Proof.
  induction criteria as [|[key v] criteria IH]; [done|].
  cbn. unfold getitem. destruct (r !! key) as [x|] eqn:Hx; cbn.
  - destruct (bool_decide (x = v)); [|done]. intros Hrest.
    destruct (IH Hrest) as (key' & -> & Hin & Hnone).
    exists key'. split; [done|]. split; [by right|done].
  - intros [= <-]. exists key. split; [done|]. split; [by left|done].
Qed.

Lemma all_match_app r criteria1 criteria2 :
  DataControl.all_match r (criteria1 ++ criteria2) =
    (b ← DataControl.all_match r criteria1;
     if b : bool then DataControl.all_match r criteria2 else Ok false).
Proof.
  induction criteria1 as [|[key v] criteria1 IH]; [done|].
  cbn. destruct (getitem r key) as [x|e]; cbn; [|done].
  by destruct (bool_decide (x = v)).
Qed.

Lemma search_loop_exact criteria R acc :
  Forall (fun r => DataControl.all_match r criteria
                   = Ok (bool_decide (satisfies criteria r))) R ->
  DataControl.search_loop criteria R acc = Ok (acc ++ filter (satisfies criteria) R).
Proof.
  revert acc. induction R as [|r R IH]; intros acc HR.
  - cbn. by rewrite app_nil_r.
  - apply Forall_cons_iff in HR as [Hr HR].
    cbn [DataControl.search_loop]. rewrite Hr. cbn.
    destruct (decide (satisfies criteria r)) as [Hsat|Hsat].
    + rewrite bool_decide_eq_true_2 by done.
      rewrite IH by done. by rewrite <- app_assoc.
    + rewrite bool_decide_eq_false_2 by done. by apply IH.
Qed.

Lemma search_loop_ok criteria R acc l :
  DataControl.search_loop criteria R acc = Ok l ->
  l = acc ++ filter (satisfies criteria) R.
Proof.
  revert acc. induction R as [|r R IH]; intros acc.
  - cbn. intros [= <-]. by rewrite app_nil_r.
  - cbn [DataControl.search_loop].
    destruct (DataControl.all_match r criteria) as [b|e] eqn:Hr; cbn; [|done].
    rewrite (all_match_ok r criteria b Hr).
    destruct (decide (satisfies criteria r)) as [Hsat|Hsat].
    + rewrite bool_decide_eq_true_2 by done. intros Hl.
      rewrite (IH _ Hl). by rewrite <- app_assoc.
    + rewrite bool_decide_eq_false_2 by done. apply IH.
Qed.

Lemma search_loop_raise criteria R acc e :
  DataControl.search_loop criteria R acc = Raise e ->
  exists key r, e = KeyError key /\ key ∈ criteria.*1 /\ r ∈ R /\ r !! key = None.
Proof.
  revert acc. induction R as [|r R IH]; intros acc; [done|].
  cbn [DataControl.search_loop].
  destruct (DataControl.all_match r criteria) as [b|e'] eqn:Hr; cbn.
  - intros Hrest.
    assert (exists key r0, e = KeyError key /\ key ∈ criteria.*1
                           /\ r0 ∈ R /\ r0 !! key = None)
      as (key & r0 & He & Hkey & Hin & Hnone) by (destruct b; eapply IH, Hrest).
    exists key, r0. repeat (split; [done|]). split; [by right|done].
  - intros [= <-]. destruct (all_match_raise r criteria e' Hr) as (key & -> & Hkey & Hnone).
    exists key, r. repeat (split; [done|]). split; [by left|done].
Qed.

(** [all] returns exactly on the records that have every key it gets
    to. *)
Lemma all_match_reached r criteria :
  keys_where_reached criteria r ->
  DataControl.all_match r criteria = Ok (bool_decide (satisfies criteria r)).
Proof.
  induction criteria as [|[key v] criteria IH]; intros Hkeys; [done|].
  destruct (Hkeys [] key v criteria eq_refl) as [x Hx]; [constructor|].
  cbn [DataControl.all_match]. unfold getitem. rewrite Hx. cbn.
  destruct (decide (x = v)) as [->|Hxv].
  - rewrite (bool_decide_eq_true_2 (v = v)) by done. rewrite IH.
    + f_equal. apply bool_decide_ext. rewrite satisfies_cons. tauto.
    + intros criteria1 key' v' criteria2 -> Hsat.
      apply (Hkeys ((key, v) :: criteria1) key' v' criteria2); [done|].
      by apply satisfies_cons.
  - rewrite (bool_decide_eq_false_2 (x = v)) by done.
    f_equal. symmetry. apply bool_decide_eq_false_2.
    rewrite satisfies_cons. intros [Hv _]. congruence.
Qed.

Lemma all_match_returns r criteria b :
  DataControl.all_match r criteria = Ok b -> keys_where_reached criteria r.
Proof.
  revert b. induction criteria as [|[key v] criteria IH]; intros b.
  - intros _ [|? ?] ? ? ? ?; discriminate.
  - cbn [DataControl.all_match]. unfold getitem.
    destruct (r !! key) as [x|] eqn:Hx; cbn; [|done].
    destruct (decide (x = v)) as [->|Hxv].
    + rewrite (bool_decide_eq_true_2 (v = v)) by done. intros Hrest.
      intros [|pair criteria1] key' v' criteria2 Heq Hsat.
      * injection Heq as <- <- <-. by eexists.
      * injection Heq as <- ->. apply satisfies_cons in Hsat as [_ Hsat].
        by apply (IH b Hrest criteria1 key' v' criteria2).
    + intros _ [|pair criteria1] key' v' criteria2 Heq Hsat.
      * injection Heq as <- <- <-. by eexists.
      * injection Heq as <- ->. apply satisfies_cons in Hsat as [Hv _]. congruence.
Qed.

Lemma search_loop_returns criteria R acc found :
  DataControl.search_loop criteria R acc = Ok found ->
  Forall (keys_where_reached criteria) R.
Proof.
  revert acc. induction R as [|r R IH]; intros acc; [by constructor|].
  cbn [DataControl.search_loop].
  destruct (DataControl.all_match r criteria) as [b|e] eqn:Hr; cbn; [|done].
  intros Hrest. apply Forall_cons_iff. split; [by eapply all_match_returns|].
  destruct b; by eapply IH.
Qed.

End SearchFacts.

Section SearchProperties.
Context `{JsonModule}.
Implicit Types (self : DataControl.t) (w : world) (R : list record).
Implicit Types (criteria : list (string * value)).

(** X6. Whatever the criteria, [search_records] on a store that holds [R]
    ends in one of two ways: it returns exactly the records that agree
    with the criteria, or it raises [KeyError] on a key of the criteria
    that some stored record does not have.  It raises nothing else and
    returns no other list. *)
Theorem search_records_outcome self w R criteria :
  stores self w R ->
  match (DataControl.search_records self criteria w).1 with
  | Ok found => found = filter (satisfies criteria) R
  | Raise e =>
      exists key r, e = KeyError key /\ key ∈ criteria.*1 /\ r ∈ R /\ r !! key = None
  end.
Proof.
  intros HR. unfold DataControl.search_records.
  rewrite (bind_read_file _ _ R) by done. unfold lift. cbn.
  destruct (DataControl.search_loop criteria R []) as [found|e] eqn:Hloop.
  - by apply (search_loop_ok criteria R []).
  - by apply (search_loop_raise criteria R []).
Qed.

(** X7. A key has to be present only where [all] reaches it.  On a store
    that holds [R], [search_records] returns, and then what it returns is
    the matching records, exactly when every record has each key of the
    criteria whose earlier pairs all agree with that record.  A key that
    no record has is harmless behind a pair that the record does not
    match, record by record. *)
Theorem search_keys_needed_where_reached self w R criteria :
  stores self w R ->
  (Forall (keys_where_reached criteria) R ->
   DataControl.search_records self criteria w
   = (Ok (filter (satisfies criteria) R), w))
  /\ ((exists found, DataControl.search_records self criteria w = (Ok found, w)) ->
      Forall (keys_where_reached criteria) R).
Proof.
  intros HR. unfold DataControl.search_records.
  rewrite (bind_read_file _ _ R) by done. unfold lift. split.
  - intros Hkeys. rewrite search_loop_exact; [done|].
    eapply Forall_impl; [|exact Hkeys]. intros r. apply all_match_reached.
  - intros [found [= Hloop]]. by apply (search_loop_returns criteria R [] found).
Qed.

End SearchProperties.

(** ** More on records and the balance *)

Section RecordFacts.
Implicit Types (d : DataFormat.t) (R : list record) (cat : string).

Lemma dictionary_fields d :
  DataFormat.dictionary d !! "date" = Some (VStr (DataFormat.date d))
  /\ DataFormat.dictionary d !! "category" = Some (VStr (DataFormat.category d))
  /\ DataFormat.dictionary d !! "amount" = Some (VNum (DataFormat.amount d))
  /\ DataFormat.dictionary d !! "description" = Some (VStr (DataFormat.description d)).
Proof. done. Qed.




(** X8. The dictionary of a record has the four keys of the file format and
    no other, each carrying its field, so two records with the same
    dictionary are the same record. *)
Theorem dictionary_exact d1 d2 :
  dom (DataFormat.dictionary d1)
  = ({["date"; "category"; "amount"; "description"]} : gset string)
  /\ (DataFormat.dictionary d1 = DataFormat.dictionary d2 -> d1 = d2).
Proof.
  split.
  - unfold DataFormat.dictionary. rewrite !dom_insert_L, dom_empty_L. set_solver.
  - intros Heq.
    destruct (dictionary_fields d1) as (Hd1 & Hc1 & Ha1 & Hs1).
    destruct (dictionary_fields d2) as (Hd2 & Hc2 & Ha2 & Hs2).
    rewrite Heq in Hd1, Hc1, Ha1, Hs1.
    destruct d1, d2. cbn in *. congruence.
Qed.

End RecordFacts.

Section BalanceProperties.
Context `{JsonModule} `{Arithmetic}.
Implicit Types (self : DataControl.t) (w : world) (R : list record).

Lemma read_file_cases self w :
  DataControl.read_file self w = (Raise JSONDecodeError, w)
  \/ exists R, stores self w R.
Proof.
  destruct (files w !! DataControl.filename self) as [content|] eqn:Hf.
  - destruct (json_load content) as [R|] eqn:Hload.
    + right. exists R. unfold stores.
      rewrite (read_file_present _ _ _ Hf). by rewrite Hload.
    + left. by apply (read_file_malformed _ _ content).
  - right. exists []. by apply read_file_missing.
Qed.

(** X9. [display_balance] prints all or nothing and writes no file: when it
    returns, the console has gained exactly the three lines of one
    report, the first showing the second [-] the third as the program
    computes it; when it raises, on an unreadable file or on a record
    without category or with a missing or non-numeric amount, the world
    is as it was. *)
Theorem display_balance_all_or_nothing (main : Main.t) w :
  files (Main.display_balance main w).2 = files w
  /\ match (Main.display_balance main w).1 with
     | Ok _ =>
         exists income expenses,
           console (Main.display_balance main w).2
           = console w ++ balance_lines (py_sub income expenses) income expenses
     | Raise _ => (Main.display_balance main w).2 = w
     end.
Proof.
  destruct (read_file_cases (Main.data_manager main) w) as [Hraise|[R HR]].
  - unfold Main.display_balance.
    by rewrite (bind_read_file_raise _ w JSONDecodeError).
  - rewrite (display_balance_stores main w R HR).
    destruct (Main.sum_amounts "Доход" R []) as [income|e]; [|done].
    destruct (Main.sum_amounts "Расход" R []) as [expenses|e]; [|done].
    cbn. split; [done|]. by exists income, expenses.
Qed.


End BalanceProperties.

(** ** The terminal layer *)

Section TerminalFacts.
Context `{JsonModule}.

Lemma act_bind_return {A B} (m : act A) (k : A -> act B) s a s' :
  m s = (Return a, s') -> (m ≫= k) s = k a s'.
Proof. intros Hm. unfold mbind, act_bind. by rewrite Hm. Qed.

Lemma act_bind_throw {A B} (m : act A) (k : A -> act B) s e s' :
  m s = (Throw e, s') -> (m ≫= k) s = (Throw e, s').
Proof. intros Hm. unfold mbind, act_bind. by rewrite Hm. Qed.

Lemma keeps_ret {A} (I : session -> Prop) (a : A) (Q : A -> Prop) :
  Q a -> keeps I (mret a) Q.
Proof. intros HQ s HI. by split. Qed.

Lemma keeps_bind {A B} (I : session -> Prop) (m : act A) (k : A -> act B)
    (Q : A -> Prop) (Q' : B -> Prop) :
  keeps I m Q -> (forall a, Q a -> keeps I (k a) Q') -> keeps I (m ≫= k) Q'.
Proof.
  intros Hm Hk s HI. destruct (Hm s HI) as [HI' HQ].
  unfold mbind, act_bind. destruct (m s) as [[a|e] s']; cbn in *; [|done].
  by apply Hk.
Qed.

Lemma keeps_weaken {A} (I : session -> Prop) (m : act A) (Q Q' : A -> Prop) :
  keeps I m Q -> (forall a, Q a -> Q' a) -> keeps I m Q'.
Proof.
  intros Hm HQ s HI. destruct (Hm s HI) as [HI' Ha]. split; [done|].
  destruct (m s).1; [by apply HQ|done].
Qed.

Lemma keeps_input (I : session -> Prop) prompt :
  tty_closed I -> keeps I (input prompt) (fun _ => True).
Proof.
  intros HI s Hs. unfold input. destruct (stdin s) as [|line lines] eqn:Hin; cbn.
  - split; [|done]. apply HI; [done|]. by rewrite Hin.
  - split; [|done]. apply HI; [done|]. rewrite Hin. by apply suffix_cons_r.
Qed.

Lemma keeps_print_line (I : session -> Prop) items :
  tty_closed I -> keeps I (print_line items) (fun _ => True).
Proof. intros HI s Hs. split; [|done]. by apply HI. Qed.

Lemma keeps_run_result {A} (I : session -> Prop) (r : result A) :
  keeps I (run_result r) (fun _ => True).
Proof. intros s Hs. unfold run_result. by destruct r. Qed.

End TerminalFacts.

Section InputFacts.
Context `{JsonModule} `{Builtins}.

Lemma category_loop_spec lines written :
  (UI.category_loop lines written).2.1 `suffix_of` lines
  /\ match (UI.category_loop lines written).1 with
     | Return c => c = "Доход" \/ c = "Расход"
     | Throw e => e = EOFError
     end.
Proof.
  revert written. induction lines as [|line lines IH]; intros written; [done|].
  cbn [UI.category_loop].
  destruct (decide (line = "1")); [by split; [apply suffix_cons_r|left]|].
  destruct (decide (line = "2")); [by split; [apply suffix_cons_r|right]|].
  destruct (IH (written ++
                [Prompt "Введите число для выбора категории (1 - Доход, 2 - Расход): "] ++
                [Line [VStr "Некорректный ввод. Пожалуйста, введите 1 для Дохода или 2 для Расхода."]]))
    as [Hsuffix Hres].
  rewrite app_assoc in Hsuffix, Hres. split; [by apply suffix_cons_r|done].
Qed.

Lemma amount_loop_spec lines written :
  (UI.amount_loop lines written).2.1 `suffix_of` lines
  /\ match (UI.amount_loop lines written).1 with
     | Return a => 0 <= a
     | Throw e => e = EOFError \/ exists line, e = ValueError line /\ py_float line = None
     end.
Proof.
  revert written. induction lines as [|line lines IH]; intros written.
  - cbn. split; [done|by left].
  - cbn [UI.amount_loop]. destruct (py_float line) as [a|] eqn:Hline.
    + destruct (decide (0 <= a)); [by split; [apply suffix_cons_r|]|].
      destruct (IH (written ++ [Prompt "Введите сумму: "] ++
                    [Line [VStr "Некорректный ввод. Введите положительное число"]]))
        as [Hsuffix Hres].
      rewrite app_assoc in Hsuffix, Hres. split; [by apply suffix_cons_r|done].
    + split; [by apply suffix_cons_r|]. right. by exists line.
Qed.

Lemma keeps_on_tty {A} (I : session -> Prop)
    (loop : list string -> list out -> outcome A * (list string * list out))
    (Q : A -> Prop) :
  tty_closed I ->
  (forall lines written,
     (loop lines written).2.1 `suffix_of` lines
     /\ match (loop lines written).1 with Return a => Q a | Throw _ => True end) ->
  keeps I (on_tty loop) Q.
Proof.
  intros HI Hloop s Hs. unfold on_tty.
  destruct (Hloop (stdin s) (stdout s)) as [Hsuffix Hres].
  destruct (loop (stdin s) (stdout s)) as [r [lines written]]. cbn in *.
  split; [by apply HI|done].
Qed.

Lemma keeps_input_record (I : session -> Prop) :
  tty_closed I -> keeps I UI.input_record entered.
Proof.
  intros HI. unfold UI.input_record.
  eapply keeps_bind; [by apply keeps_input|]. intros date _.
  eapply (keeps_bind _ _ _ (fun c => c = "Доход" \/ c = "Расход")).
  { apply keeps_on_tty; [done|]. intros lines written.
    destruct (category_loop_spec lines written) as [Hs Hr]. split; [done|].
    by destruct (UI.category_loop lines written).1. }
  intros category Hcategory.
  eapply (keeps_bind _ _ _ (fun a => 0 <= a)).
  { apply keeps_on_tty; [done|]. intros lines written.
    destruct (amount_loop_spec lines written) as [Hs Hr]. split; [done|].
    by destruct (UI.amount_loop lines written).1. }
  intros amount Hamount.
  eapply keeps_bind; [by apply keeps_input|]. intros description _.
  by apply keeps_ret.
Qed.

Lemma keeps_input_search_criteria (I : session -> Prop) :
  tty_closed I -> keeps I UI.input_search_criteria (fun _ => True).
Proof.
  intros HI. unfold UI.input_search_criteria.
  eapply keeps_bind; [by apply keeps_input|]. intros date _.
  eapply keeps_bind; [by apply keeps_input|]. intros category _.
  by apply keeps_ret.
Qed.

Lemma keeps_display_records (I : session -> Prop) records :
  tty_closed I -> keeps I (UI.display_records records) (fun _ => True).
Proof.
  intros HI. induction records as [|record0 records IH]; [by apply keeps_ret|].
  cbn [UI.display_records].
  do 4 (eapply keeps_bind; [by apply keeps_run_result|]; intros ? _).
  eapply keeps_bind; [by apply keeps_print_line|]. by intros _ _.
Qed.

End InputFacts.

Section MenuFacts.
Context `{JsonModule} `{Arithmetic} `{Builtins}.
Implicit Types (self : Main.t) (s : session) (I : session -> Prop).

Lemma session_eta s : Session _ (stdin s) (stdout s) (disk s) = s.
Proof. by destruct s. Qed.

Lemma search_records_world (dm : DataControl.t) criteria (w : world) :
  (DataControl.search_records dm criteria w).2 = w.
Proof.
  unfold DataControl.search_records, mbind, io_bind, lift.
  rewrite read_file_eta. by destruct (DataControl.read_file dm w).1.
Qed.

Lemma display_balance_files self (w : world) :
  files (Main.display_balance self w).2 = files w.
Proof.
  destruct (read_file_cases (Main.data_manager self) w) as [Hraise|[R HR]].
  - unfold Main.display_balance.
    by rewrite (bind_read_file_raise _ w JSONDecodeError).
  - rewrite (display_balance_stores self w R HR).
    destruct (Main.sum_amounts "Доход" R []) as [income|e]; [|done].
    by destruct (Main.sum_amounts "Расход" R []) as [expenses|e].
Qed.

(** Running a method that leaves the world as it was. *)
Lemma keeps_run_io_same {A} I (m : io A) :
  (forall w, (m w).2 = w) -> keeps I (run_io m) (fun _ => True).
Proof.
  intros Hm s Hs. unfold run_io. specialize (Hm (disk s)).
  destruct (m (disk s)) as [[a|e] w]; cbn in *; subst w;
    by rewrite session_eta.
Qed.

Lemma keeps_run_io_store {A} I (dm : DataControl.t) (m : io A) :
  store_closed dm I ->
  (forall w,
     files (m w).2 = files w
     \/ (exists d, entered d /\ (m w).2 = (DataControl.add_record dm d w).2)
     \/ (exists d index, entered d
                         /\ (m w).2 = (DataControl.update_record dm index d w).2)) ->
  keeps I (run_io m) (fun _ => True).
Proof.
  intros HI Hm s Hs. unfold run_io. specialize (Hm (disk s)).
  destruct (m (disk s)) as [[a|e] w]; cbn in *; by split; [apply HI|].
Qed.

Lemma keeps_display_balance I self :
  store_closed (Main.data_manager self) I ->
  keeps I (App.display_balance self) (fun _ => True).
Proof.
  intros HI. apply (keeps_run_io_store I (Main.data_manager self)); [done|].
  intros w. left. apply display_balance_files.
Qed.

Lemma keeps_add_record I self :
  tty_closed I -> store_closed (Main.data_manager self) I ->
  keeps I (App.add_record self) (fun _ => True).
Proof.
  intros Htty Hstore. unfold App.add_record.
  eapply keeps_bind; [by apply keeps_input_record|]. intros d Hd.
  apply (keeps_run_io_store I (Main.data_manager self)); [done|].
  intros w. right. left. by exists d.
Qed.

Lemma keeps_menu_display_records I self :
  tty_closed I -> keeps I (App.display_records self) (fun _ => True).
Proof.
  intros Htty. unfold App.display_records.
  eapply keeps_bind; [apply keeps_run_io_same, read_file_world|].
  intros records _. by apply keeps_display_records.
Qed.

Lemma keeps_changing_record I self :
  tty_closed I -> store_closed (Main.data_manager self) I ->
  keeps I (App.changing_record self) (fun _ => True).
Proof.
  intros Htty Hstore. unfold App.changing_record.
  eapply keeps_bind; [apply keeps_run_io_same, read_file_world|].
  intros [|record0 records] _; [by apply keeps_print_line|].
  eapply keeps_bind; [by apply keeps_display_records|]. intros _ _.
  eapply keeps_bind; [by apply keeps_input|]. intros line _.
  destruct (py_int line) as [number|]; [|by intros s Hs].
  case_bool_decide; [|by apply keeps_print_line].
  eapply keeps_bind; [by apply keeps_input_record|]. intros d Hd.
  eapply keeps_bind.
  { apply (keeps_run_io_store I (Main.data_manager self)); [done|].
    intros w. right. right. by exists d, (number - 1)%Z. }
  intros [|] _; by apply keeps_print_line.
Qed.

Lemma keeps_menu_search_records I self :
  tty_closed I -> keeps I (App.search_records self) (fun _ => True).
Proof.
  intros Htty. unfold App.search_records.
  eapply keeps_bind; [by apply keeps_input_search_criteria|]. intros criteria _.
  eapply keeps_bind; [apply keeps_run_io_same, search_records_world|].
  intros [|record0 records] _;
    [by apply keeps_print_line|by apply keeps_display_records].
Qed.

Lemma keeps_dispatch I self choice :
  tty_closed I -> store_closed (Main.data_manager self) I ->
  keeps I (App.dispatch self choice) (fun _ => True).
Proof.
  intros Htty Hstore. unfold App.dispatch.
  repeat case_decide;
    auto using keeps_display_balance, keeps_add_record, keeps_menu_display_records,
      keeps_changing_record, keeps_menu_search_records, keeps_print_line.
Qed.

(** What one turn of the menu starts with. *)
Lemma input_cases prompt s :
  (stdin s = []
   /\ input prompt s
      = (Throw EOFError, Session _ [] (stdout s ++ [Prompt prompt]) (disk s)))
  \/ exists line lines,
       stdin s = line :: lines
       /\ input prompt s
          = (Return line, Session _ lines (stdout s ++ [Prompt prompt]) (disk s)).
Proof.
  unfold input. destruct (stdin s) as [|line lines]; [by left|].
  right. by exists line, lines.
Qed.

Lemma menu_loop_keeps I turns self s :
  tty_closed I -> store_closed (Main.data_manager self) I -> I s ->
  match App.menu_loop turns self s with
  | Some (_, s') => I s'
  | None => True
  end.
Proof.
  intros Htty Hstore. revert s. induction turns as [|turns IH]; intros s Hs; [done|].
  cbn [App.menu_loop].
  pose proof (keeps_input I App.menu Htty s Hs) as [Hs1 _].
  destruct (input App.menu s) as [[choice|e] s1]; cbn in Hs1; [|done].
  case_decide; [done|].
  pose proof (keeps_dispatch I self choice Htty Hstore s1 Hs1) as [Hs2 _].
  destruct (App.dispatch self choice s1) as [[[]|e] s2]; cbn in Hs2; [|done].
  by apply IH.
Qed.

Lemma suffix_tty_closed (lines0 : list string) :
  tty_closed (fun s => stdin s `suffix_of` lines0).
Proof. intros s lines written Hs Hlines. cbn. by etrans. Qed.

Lemma suffix_store_closed (dm : DataControl.t) (lines0 : list string) :
  store_closed dm (fun s => stdin s `suffix_of` lines0).
Proof. by intros s w' Hs _. Qed.

(** Turns beyond the number of lines left change nothing, and with that
    many the loop ends. *)
Lemma menu_loop_turns turns1 turns2 self s :
  (length (stdin s) < turns1)%nat -> (length (stdin s) < turns2)%nat ->
  App.menu_loop turns1 self s = App.menu_loop turns2 self s
  /\ is_Some (App.menu_loop turns1 self s).
Proof.
  revert turns2 s. induction turns1 as [|turns1 IH]; intros turns2 s Ht1 Ht2; [lia|].
  destruct turns2 as [|turns2]; [lia|]. cbn [App.menu_loop].
  destruct (input_cases App.menu s) as [[Hin ->]|(choice & lines & Hin & ->)]; [by eauto|].
  case_decide; [by eauto|].
  pose proof (keeps_dispatch (fun s' => stdin s' `suffix_of` lines) self choice
                (suffix_tty_closed lines) (suffix_store_closed _ lines)
                (Session _ lines (stdout s ++ [Prompt App.menu]) (disk s))) as Hkeep.
  destruct Hkeep as [Hs2 _]; [done|].
  destruct (App.dispatch self choice _) as [[[]|e] s2]; cbn in Hs2; [|by eauto].
  apply suffix_length in Hs2. rewrite Hin in Ht1, Ht2. cbn in Ht1, Ht2.
  apply IH; lia.
Qed.

End MenuFacts.

Section LedgerFacts.
Context `{JsonModule}.
Implicit Types (dm : DataControl.t).

Lemma stores_local dm (w1 w2 : world) R :
  files w1 !! DataControl.filename dm = files w2 !! DataControl.filename dm ->
  stores dm w1 R -> stores dm w2 R.
Proof.
  unfold stores. intros Hfiles HR. rewrite read_file_eta.
  by rewrite (read_file_local dm w2 w1), HR.
Qed.

Lemma stores_agree dm (w : world) R1 R2 :
  stores dm w R1 -> stores dm w R2 -> R1 = R2.
Proof. unfold stores. congruence. Qed.

Lemma ledger_tty_closed dm n : tty_closed (ledger_at_least dm n).
Proof. by intros s lines written Hs _. Qed.

Lemma ledger_store_closed dm n :
  json_round_trip -> store_closed dm (ledger_at_least dm n).
Proof.
  intros Hjson s w' (entries & [HR Hentered] & Hn) Hw'. unfold ledger_at_least. cbn.
  destruct Hw' as [Hfiles|[(d & Hd & ->)|(d & index & Hd & ->)]].
  - exists entries. split; [|done]. split; [|done].
    apply (stores_local dm (disk s)); [by rewrite Hfiles|done].
  - exists (entries ++ [d]). split; [split|].
    + rewrite (add_record_world dm _ _ d HR), fmap_app.
      by apply stores_after_save.
    + apply Forall_app. split; [done|]. apply Forall_cons_iff. by split.
    + rewrite length_app. cbn. lia.
  - destruct (update_record_cases dm index d (disk s))
      as [->|[->|(R & HR' & Hindex & ->)]]; [by exists entries..|].
    rewrite <- (stores_agree dm _ _ _ HR HR') in *.
    exists (<[Z.to_nat index := d]> entries). split; [split|].
    + rewrite list_fmap_insert. by apply stores_after_save.
    + by apply Forall_insert.
    + by rewrite length_insert.
Qed.

End LedgerFacts.

Section InputRuns.
Context `{JsonModule} `{Builtins}.

Lemma category_loop_retries wrong choice rest written :
  Forall (fun c => c <> "1" /\ c <> "2") wrong ->
  choice = "1" \/ choice = "2" ->
  UI.category_loop (wrong ++ choice :: rest) written
  = (Return (if decide (choice = "1") then "Доход" else "Расход"),
     (rest, written ++ (wrong ≫= fun _ => [category_prompt; category_retry])
                    ++ [category_prompt])).
Proof.
  intros Hwrong Hchoice. revert written.
  induction Hwrong as [|c wrong [Hc1 Hc2] _ IH]; intros written.
  - cbn. destruct Hchoice as [->| ->].
    + by rewrite !(decide_True (P := "1" = "1")) by done.
    + rewrite !(decide_False (P := "2" = "1")) by done.
      by rewrite (decide_True (P := "2" = "2")) by done.
  - cbn [List.app UI.category_loop].
    rewrite (decide_False (P := c = "1")), (decide_False (P := c = "2")) by done.
    rewrite IH. cbn. by rewrite <- !app_assoc.
Qed.

Lemma amount_loop_retries negative amount_text amount rest written :
  Forall (fun line => exists q, py_float line = Some q /\ q < 0) negative ->
  py_float amount_text = Some amount ->
  0 <= amount ->
  UI.amount_loop (negative ++ amount_text :: rest) written
  = (Return amount,
     (rest, written ++ (negative ≫= fun _ => [amount_prompt; amount_retry])
                    ++ [amount_prompt])).
Proof.
  intros Hnegative Hamount Hle. revert written.
  induction Hnegative as [|line negative (q & Hq & Hlt) _ IH]; intros written.
  - cbn. rewrite Hamount. by rewrite decide_True.
  - cbn [List.app UI.amount_loop]. rewrite Hq.
    rewrite decide_False by by apply Qclt_not_le.
    rewrite IH. cbn. by rewrite <- !app_assoc.
Qed.

Lemma display_records_entries (entries : list DataFormat.t) s :
  UI.display_records (DataFormat.dictionary <$> entries) s
  = (Return tt, Session _ (stdin s) (stdout s ++ (record_line <$> entries)) (disk s)).
Proof.
  revert s. induction entries as [|d entries IH]; intros s.
  - cbn. by rewrite app_nil_r, session_eta.
  - cbn [fmap list_fmap UI.display_records].
    destruct (dictionary_fields d) as (Hdate & Hcategory & Hamount & Hdescription).
    unfold mbind at 1 2 3 4 5, act_bind, run_result, print_line, getitem.
    rewrite Hdate, Hcategory, Hamount, Hdescription. cbn -[UI.display_records].
    rewrite IH. cbn. by rewrite <- app_assoc.
Qed.

Lemma input_record_spec s :
  match UI.input_record s with
  | (Return d, s') =>
      entered d /\ disk s' = disk s /\ stdin s' `suffix_of` stdin s
  | (Throw e, s') =>
      (e = EOFError \/ exists line, e = ValueError line /\ py_float line = None)
      /\ disk s' = disk s /\ stdin s' `suffix_of` stdin s
  end.
Proof.
  unfold UI.input_record, mbind, act_bind.
  destruct (input_cases "Введите дату (гггг-мм-дд): " s)
    as [[Hin ->]|(date & lines & Hin & ->)].
  { split; [by left|]. split; [done|]. by rewrite Hin. }
  unfold on_tty at 1. cbn [stdin stdout disk].
  destruct (category_loop_spec lines (stdout s ++ [Prompt "Введите дату (гггг-мм-дд): "]))
    as [Hs1 Hc].
  destruct (UI.category_loop lines _) as [[category|e] [lines1 written1]];
    cbn in Hs1, Hc.
  2:{ split; [by left|]. split; [done|]. cbn. rewrite Hin. by apply suffix_cons_r. }
  unfold on_tty. cbn [stdin stdout disk].
  destruct (amount_loop_spec lines1 written1) as [Hs2 Ha].
  destruct (UI.amount_loop lines1 written1) as [[amount|e] [lines2 written2]];
    cbn in Hs2, Ha.
  2:{ split; [done|]. split; [done|]. cbn. rewrite Hin.
      apply suffix_cons_r. by etrans. }
  assert (lines2 `suffix_of` stdin s) as Hs.
  { rewrite Hin. apply suffix_cons_r. by etrans. }
  destruct (input_cases "Введите описание: " (Session _ lines2 written2 (disk s)))
    as [[Hin2 ->]|(description & lines3 & Hin2 & ->)].
  { split; [by left|]. split; [done|]. cbn. apply suffix_nil. }
  cbn in Hin2. subst lines2. cbn. split; [by split|]. split; [done|].
  etrans; [|exact Hs]. by apply suffix_cons_r.
Qed.

(** X12. [input_record] returns only entered records: the category is one of
    the two fixed strings and the amount is not negative, whatever was
    typed.  It fails only at the end of the input or on an amount that
    [float] cannot read.  In every case, returning or raising, it leaves
    the files alone and what is left of the input is a suffix of what
    there was: lines are read from the front only. *)
Theorem input_record_outcome s :
  match UI.input_record s with
  | (Return d, s') =>
      entered d /\ disk s' = disk s /\ stdin s' `suffix_of` stdin s
  | (Throw e, s') =>
      (e = EOFError \/ exists line, e = ValueError line /\ py_float line = None)
      /\ disk s' = disk s /\ stdin s' `suffix_of` stdin s
  end.
Proof. apply input_record_spec. Qed.

(** X13. What [input_record] does with lines it rejects: a category choice
    other than 1 or 2, and an amount below zero, each cost one line and
    one message, and the question is asked again; the record is built from
    the first accepted choice and amount. *)
Theorem input_record_asks_again date wrong choice negative amount_text amount
    description rest written (w : world) :
  Forall (fun c => c <> "1" /\ c <> "2") wrong ->
  choice = "1" \/ choice = "2" ->
  Forall (fun line => exists q, py_float line = Some q /\ q < 0) negative ->
  py_float amount_text = Some amount ->
  0 <= amount ->
  UI.input_record
    (Session _ (date :: wrong ++ choice :: negative ++ amount_text :: description :: rest)
       written w)
  = (Return (DataFormat.Build date
               (if decide (choice = "1") then "Доход" else "Расход")
               amount description),
     Session _ rest
       (written ++ [date_prompt]
        ++ (wrong ≫= fun _ => [category_prompt; category_retry]) ++ [category_prompt]
        ++ (negative ≫= fun _ => [amount_prompt; amount_retry]) ++ [amount_prompt]
        ++ [description_prompt])
       w).
Proof.
  intros Hwrong Hchoice Hnegative Hamount Hle.
  unfold UI.input_record, mbind, act_bind, on_tty, input. cbn [stdin stdout disk].
  rewrite (category_loop_retries wrong choice _ _ Hwrong Hchoice).
  cbn [stdin stdout disk].
  rewrite (amount_loop_retries negative amount_text amount _ _ Hnegative Hamount Hle).
  cbn [stdin stdout disk]. by rewrite <- !app_assoc.
Qed.

End InputRuns.

Section MenuRuns.
Context `{JsonModule} `{Builtins}.
Implicit Types (self : Main.t) (s : session) (entries : list DataFormat.t).

Lemma run_io_read_file (dm : DataControl.t) s R :
  stores dm (disk s) R -> run_io (DataControl.read_file dm) s = (Return R, s).
Proof. intros HR. unfold run_io. rewrite HR. by rewrite session_eta. Qed.

Lemma input_line prompt s line lines :
  stdin s = line :: lines ->
  input prompt s
  = (Return line, Session _ lines (stdout s ++ [Prompt prompt]) (disk s)).
Proof. intros Hin. unfold input. by rewrite Hin. Qed.

Lemma display_records_after entries records s :
  UI.display_records ((DataFormat.dictionary <$> entries) ++ records) s
  = UI.display_records records
      (Session _ (stdin s) (stdout s ++ (record_line <$> entries)) (disk s)).
Proof.
  revert s. induction entries as [|d entries IH]; intros s.
  - cbn. by rewrite app_nil_r, session_eta.
  - cbn [fmap list_fmap List.app UI.display_records].
    destruct (dictionary_fields d) as (Hdate & Hcategory & Hamount & Hdescription).
    unfold mbind at 1 2 3 4 5, act_bind, run_result, print_line, getitem.
    rewrite Hdate, Hcategory, Hamount, Hdescription. cbn -[UI.display_records].
    rewrite IH. cbn. by rewrite <- app_assoc.
Qed.

Lemma display_records_missing (r : record) records key s :
  first_missing r = Some key ->
  UI.display_records (r :: records) s = (Throw (Py (KeyError key)), s).
Proof.
  unfold first_missing. cbn [find UI.display_records].
  unfold mbind, act_bind, run_result, getitem.
  destruct (r !! "date") as [v1|]; cbn; [|by intros [= <-]].
  destruct (r !! "category") as [v2|]; cbn; [|by intros [= <-]].
  destruct (r !! "amount") as [v3|]; cbn; [|by intros [= <-]].
  by destruct (r !! "description") as [v4|]; cbn; [|intros [= <-]].
Qed.

Lemma satisfies_date_category date category (d : DataFormat.t) :
  satisfies [("date", VStr date); ("category", VStr category)] (DataFormat.dictionary d)
  <-> DataFormat.date d = date /\ DataFormat.category d = category.
Proof.
  destruct (dictionary_fields d) as (Hdate & Hcategory & _).
  rewrite !satisfies_cons. cbn. rewrite Hdate, Hcategory. unfold satisfies.
  split.
  - intros ([= ->] & [= ->] & _). done.
  - intros [-> ->]. by repeat split.
Qed.

Lemma filter_date_category date category entries :
  filter (satisfies [("date", VStr date); ("category", VStr category)])
    (DataFormat.dictionary <$> entries)
  = DataFormat.dictionary
      <$> filter (fun d => DataFormat.date d = date /\ DataFormat.category d = category)
            entries.
Proof.
  induction entries as [|d entries IH]; [done|].
  cbn [fmap list_fmap]. rewrite !filter_cons.
  destruct (decide (DataFormat.date d = date /\ DataFormat.category d = category))
    as [Hd|Hd].
  - rewrite decide_True by by apply satisfies_date_category.
    cbn [fmap list_fmap]. by f_equal.
  - rewrite decide_False by by rewrite satisfies_date_category. done.
Qed.

(** X14. Listing writes one line for each record, in order, and reads nothing.
    A record without one of the four fields stops the listing with
    [KeyError] on the first field it lacks, after the lines of the
    records before it and before any line of its own. *)
Theorem display_records_lines entries (r : record) records key s :
  let listed := Session _ (stdin s) (stdout s ++ (record_line <$> entries)) (disk s) in
  UI.display_records (DataFormat.dictionary <$> entries) s = (Return tt, listed)
  /\ (first_missing r = Some key ->
      UI.display_records ((DataFormat.dictionary <$> entries) ++ r :: records) s
      = (Throw (Py (KeyError key)), listed)).
Proof.
  intros listed. split; [apply display_records_entries|].
  intros Hkey. rewrite display_records_after. by apply display_records_missing.
Qed.

(** X15. Adding through the menu writes the file only once a whole record has
    been read: when it returns, the files are those that
    [DataControl.add_record] leaves for an entered record; when it
    raises, at the end of the input, on an unreadable amount or on an
    unreadable file, the files are as they were. *)
Theorem menu_add_record_outcome self s :
  match App.add_record self s with
  | (Return _, s') =>
      exists d, entered d
                /\ DataControl.add_record (Main.data_manager self) d (disk s)
                   = (Ok tt, disk s')
  | (Throw _, s') => disk s' = disk s
  end.
Proof.
  unfold App.add_record, mbind, act_bind.
  pose proof (input_record_spec s) as Hinput.
  destruct (UI.input_record s) as [[d|e] s1]; [|by destruct Hinput as (_ & Hdisk & _)].
  destruct Hinput as (Hd & Hdisk & _). unfold run_io. rewrite Hdisk.
  destruct (add_record_cases (Main.data_manager self) d (disk s))
    as [Hraise|(R & _ & Hsave)].
  - by rewrite Hraise.
  - rewrite Hsave, save_records_world. cbn. eauto.
Qed.

(** X16. Editing refuses without touching the files: on an empty ledger it
    says so and reads nothing; otherwise it lists the records and reads
    one line, and a line that [int] cannot read raises [ValueError], while
    a number outside 1..len is answered with a message.  No record is
    asked for in either case. *)
Theorem changing_record_rejects self s entries :
  stores (Main.data_manager self) (disk s) (DataFormat.dictionary <$> entries) ->
  (entries = [] ->
   App.changing_record self s
   = (Return tt,
      Session _ (stdin s)
        (stdout s ++ [Line [VStr "Нет доступных записей для изменения."]]) (disk s)))
  /\ (forall line rest,
        entries <> [] -> stdin s = line :: rest ->
        let listed := stdout s ++ (record_line <$> entries) ++ [number_prompt] in
        match py_int line with
        | None =>
            App.changing_record self s
            = (Throw (ValueError line), Session _ rest listed (disk s))
        | Some number =>
            ~ (1 <= number <= Z.of_nat (length entries))%Z ->
            App.changing_record self s
            = (Return tt,
               Session _ rest (listed ++ [Line [VStr "Некорректный номер записи."]])
                 (disk s))
        end).
Proof.
  intros HR. unfold App.changing_record.
  rewrite (act_bind_return _ _ s _ s (run_io_read_file _ s _ HR)). split.
  - by intros ->.
  - intros line rest Hne Hin.
    destruct entries as [|d entries]; [done|]. cbn [fmap list_fmap].
    change (DataFormat.dictionary d :: (DataFormat.dictionary <$> entries))
      with (DataFormat.dictionary <$> d :: entries).
    rewrite (act_bind_return _ _ s _ _ (display_records_entries (d :: entries) s)).
    erewrite act_bind_return; [|by apply input_line]. cbn [stdin stdout disk].
    destruct (py_int line) as [number|]; [|by rewrite <- !app_assoc].
    intros Hout. rewrite bool_decide_eq_false_2 by (rewrite length_fmap; lia).
    unfold print_line. cbn [stdin stdout disk]. by rewrite <- !app_assoc.
Qed.

(** X17. Editing replaces by the number shown: with a number n in 1..len and
    a record read from the lines that follow, the record at position n-1
    of the stored list is replaced, the others stay, and the success
    message is written (never the failure message). *)
Theorem changing_record_replaces (Hjson : json_round_trip) self s entries line rest
    number d s1 :
  stores (Main.data_manager self) (disk s) (DataFormat.dictionary <$> entries) ->
  stdin s = line :: rest ->
  py_int line = Some number ->
  (1 <= number <= Z.of_nat (length entries))%Z ->
  UI.input_record
    (Session _ rest (stdout s ++ (record_line <$> entries) ++ [number_prompt]) (disk s))
  = (Return d, s1) ->
  exists w',
    App.changing_record self s
    = (Return tt,
       Session _ (stdin s1) (stdout s1 ++ [Line [VStr "Запись успешно изменена."]]) w')
    /\ stores (Main.data_manager self) w'
         (DataFormat.dictionary <$> <[Z.to_nat (number - 1) := d]> entries).
Proof.
  intros HR Hin Hnumber Hrange Hinput.
  pose proof (input_record_spec
                (Session _ rest (stdout s ++ (record_line <$> entries) ++ [number_prompt])
                   (disk s))) as Hspec.
  rewrite Hinput in Hspec. destruct Hspec as (_ & Hdisk & _). cbn in Hdisk.
  assert (0 <= number - 1 < Z.of_nat (length (DataFormat.dictionary <$> entries)))%Z
    as Hindex by (rewrite length_fmap; lia).
  exists (DataControl.save_records (Main.data_manager self)
            (<[Z.to_nat (number - 1) := DataFormat.dictionary d]>
               (DataFormat.dictionary <$> entries)) (disk s)).2.
  split.
  - unfold App.changing_record.
    rewrite (act_bind_return _ _ s _ s (run_io_read_file _ s _ HR)).
    destruct entries as [|d0 entries]; [cbn in Hrange; lia|]. cbn [fmap list_fmap].
    change (DataFormat.dictionary d0 :: (DataFormat.dictionary <$> entries))
      with (DataFormat.dictionary <$> d0 :: entries) in *.
    rewrite (act_bind_return _ _ s _ _ (display_records_entries (d0 :: entries) s)).
    erewrite act_bind_return; [|by apply input_line]. cbn [stdin stdout disk].
    rewrite Hnumber, bool_decide_eq_true_2 by done.
    rewrite <- !app_assoc. rewrite (act_bind_return _ _ _ _ _ Hinput).
    unfold mbind, act_bind, run_io. rewrite Hdisk.
    by rewrite (update_record_world _ _ _ _ d HR Hindex).
  - rewrite list_fmap_insert. by apply stores_after_save.
Qed.

(** X18. Searching through the menu reads a date and a category and lists,
    in stored order, the records written by the program that have both;
    when there is none it says so.  When the input ends before both lines
    are read it raises [EOFError] after the prompts written so far.  In
    every case the files are as they were. *)
Theorem menu_search_lists_matches self s entries :
  stores (Main.data_manager self) (disk s) (DataFormat.dictionary <$> entries) ->
  App.search_records self s
  = match stdin s with
    | date :: category :: rest =>
        let found := filter (fun d => DataFormat.date d = date
                                      /\ DataFormat.category d = category) entries in
        (Return tt,
         Session _ rest
           (stdout s ++ search_prompts
            ++ match found with
               | [] => [Line [VStr "По вашему запросу ничего не найдено."]]
               | _ :: _ => record_line <$> found
               end)
           (disk s))
    | lines =>
        (Throw EOFError,
         Session _ [] (stdout s ++ take (S (length lines)) search_prompts) (disk s))
    end.
Proof.
  intros HR. unfold App.search_records.
  destruct (stdin s) as [|date [|category rest]] eqn:Hin.
  - apply act_bind_throw. unfold UI.input_search_criteria.
    apply act_bind_throw. unfold input. by rewrite Hin.
  - apply act_bind_throw. unfold UI.input_search_criteria.
    erewrite act_bind_return; [|by apply input_line].
    apply act_bind_throw. unfold input. cbn. by rewrite <- app_assoc.
  - erewrite act_bind_return.
    2:{ unfold UI.input_search_criteria.
        erewrite act_bind_return; [|by apply input_line].
        erewrite act_bind_return; [|by apply input_line]. reflexivity. }
    cbn [stdin stdout disk].
    unfold mbind at 1, act_bind, run_io. cbn [stdin stdout disk].
    unfold DataControl.search_records. rewrite (bind_read_file _ _ _ _ HR). unfold lift.
    rewrite search_loop_filter.
    2:{ apply Forall_fmap, Forall_true. intros d.
        destruct (dictionary_fields d) as (Hdate & Hcategory & _).
        repeat (apply Forall_cons_iff; split); [by eexists..|constructor]. }
    cbn [List.app]. rewrite filter_date_category.
    cbn zeta.
    destruct (filter _ entries) as [|d0 found'].
    + unfold print_line. cbn. by rewrite <- !app_assoc.
    + change (DataFormat.dictionary <$> d0 :: found')
        with (DataFormat.dictionary d0 :: (DataFormat.dictionary <$> found')).
      cbn match. change (DataFormat.dictionary d0 :: (DataFormat.dictionary <$> found'))
        with (DataFormat.dictionary <$> d0 :: found').
      rewrite display_records_entries. cbn. by rewrite <- !app_assoc.
Qed.

End MenuRuns.

Section ApplicationRuns.
Context `{JsonModule} `{Arithmetic} `{Builtins}.
Implicit Types (self : Main.t) (s : session).

Lemma menu_loop_return turns self s s' :
  App.menu_loop turns self s = Some (Return tt, s') -> "0" ∈ stdin s.
Proof.
  revert s. induction turns as [|turns IH]; intros s; [done|].
  cbn [App.menu_loop].
  destruct (input_cases App.menu s) as [[Hin ->]|(choice & lines & Hin & ->)]; [done|].
  rewrite Hin. case_decide as Hchoice; [subst choice; intros _; by left|].
  pose proof (keeps_dispatch (fun s' => stdin s' `suffix_of` lines) self choice
                (suffix_tty_closed lines) (suffix_store_closed _ lines)
                (Session _ lines (stdout s ++ [Prompt App.menu]) (disk s))) as Hkeep.
  destruct Hkeep as [[used Hs2] _]; [done|].
  destruct (App.dispatch self choice _) as [[[]|e] s2]; cbn in Hs2; [|done].
  intros Hloop. right. rewrite Hs2. apply elem_of_app. right. by apply IH.
Qed.

(** X19. The menu loop always ends: every turn reads a line, so with one turn
    more than there are lines it never runs out of turns, and more turns
    change nothing.  It reads lines from the front of the input only, and
    it returns, rather than raising, only after reading a line ["0"]. *)
Theorem start_application_ends self s :
  exists o s',
    App.start_application self s = Some (o, s')
    /\ (forall turns, (length (stdin s) < turns)%nat ->
                      App.menu_loop turns self s = Some (o, s'))
    /\ stdin s' `suffix_of` stdin s
    /\ (o = Return tt -> "0" ∈ stdin s).
Proof.
  unfold App.start_application.
  destruct (menu_loop_turns (S (length (stdin s))) (S (length (stdin s))) self s)
    as [_ [[o s'] Hrun]]; [lia..|].
  exists o, s'. split; [done|]. split; [|split].
  - intros turns Hturns. rewrite <- Hrun.
    apply (menu_loop_turns turns (S (length (stdin s))) self s); lia.
  - pose proof (menu_loop_keeps (fun s' => stdin s' `suffix_of` stdin s)
                  (S (length (stdin s))) self s (suffix_tty_closed _)
                  (suffix_store_closed _ _)) as Hkeep.
    rewrite Hrun in Hkeep. by apply Hkeep.
  - intros ->. by apply (menu_loop_return (S (length (stdin s))) self s s').
Qed.

(** X20. The ledger stays a ledger through a whole session: if the file holds
    entered records when the menu starts, then however the session goes,
    returning or raising, the file holds entered records when it ends,
    and at least as many.  The menu never writes a record with another
    category or a negative amount, and never removes one. *)
Theorem start_application_keeps_ledger (Hjson : json_round_trip) self s entries :
  ledger_of (Main.data_manager self) (disk s) entries ->
  exists o s' entries',
    App.start_application self s = Some (o, s')
    /\ ledger_of (Main.data_manager self) (disk s') entries'
    /\ (length entries <= length entries')%nat.
Proof.
  intros Hledger. unfold App.start_application.
  destruct (menu_loop_turns (S (length (stdin s))) (S (length (stdin s))) self s)
    as [_ [[o s'] Hrun]]; [lia..|].
  pose proof (menu_loop_keeps (ledger_at_least (Main.data_manager self) (length entries))
                (S (length (stdin s))) self s (ledger_tty_closed _ _)
                (ledger_store_closed _ _ Hjson)) as Hkeep.
  rewrite Hrun in Hkeep. destruct Hkeep as (entries' & Hledger' & Hlength).
  { by exists entries. }
  by exists o, s', entries'.
Qed.

(** X21. A line ["0"] at the menu ends the loop at once, with the files as
    they are and the rest of the input unread.  A line that is none of
    the six choices is answered with a message and the menu is shown
    again, as if the line had not been typed. *)
Theorem menu_exit_and_unknown self rest written (w : world) :
  App.start_application self (Session _ ("0" :: rest) written w)
  = Some (Return tt, Session _ rest (written ++ [Prompt App.menu]) w)
  /\ forall choice,
       choice ∉ ["0"; "1"; "2"; "3"; "4"; "5"] ->
       App.start_application self (Session _ (choice :: rest) written w)
       = App.start_application self
           (Session _ rest
              (written ++ [Prompt App.menu; Line [VStr "Некорректный ввод"]]) w).
Proof.
  unfold App.start_application. cbn [stdin length]. split.
  - cbn [App.menu_loop]. unfold input. cbn [stdin stdout disk].
    by rewrite (decide_True (P := "0" = "0")) by done.
  - intros choice Hchoice.
    assert (Forall (fun c => choice <> c) ["0"; "1"; "2"; "3"; "4"; "5"]) as Hne.
    { apply Forall_forall. intros c Hc ->. by apply Hchoice, list_elem_of_In. }
    apply Forall_cons_iff in Hne as [Hn0 Hne]. apply Forall_cons_iff in Hne as [Hn1 Hne].
    apply Forall_cons_iff in Hne as [Hn2 Hne]. apply Forall_cons_iff in Hne as [Hn3 Hne].
    apply Forall_cons_iff in Hne as [Hn4 Hne]. apply Forall_cons_iff in Hne as [Hn5 _].
    change (App.menu_loop (S (S (length rest))) self
              (Session _ (choice :: rest) written w))
      with (match input App.menu (Session _ (choice :: rest) written w) with
            | (Throw e, s1) => Some (Throw e, s1)
            | (Return choice, s1) =>
                if decide (choice = "0") then Some (Return tt, s1)
                else
                  match App.dispatch self choice s1 with
                  | (Throw e, s2) => Some (Throw e, s2)
                  | (Return _, s2) => App.menu_loop (S (length rest)) self s2
                  end
            end).
    unfold input, App.dispatch. cbn [stdin stdout disk].
    rewrite !decide_False by done. unfold print_line. cbn [stdin stdout disk].
    by rewrite <- app_assoc.
Qed.

End ApplicationRuns.

Section BalanceErrors.
Context `{JsonModule} `{Arithmetic}.

(** X11. One bad record breaks the balance.  After well-formed records, a
    record without category raises [KeyError] on "category", whatever its
    amount and whatever follows; an income record without amount raises
    [KeyError] on "amount", and one whose amount is a string raises
    [TypeError].  Nothing is printed. *)
Theorem display_balance_first_bad_record (main : Main.t) (w : world)
    (R1 : list record) (r : record) (R2 : list record) :
  stores (Main.data_manager main) w (R1 ++ r :: R2) ->
  Forall well_formed R1 ->
  (r !! "category" = None ->
   Main.display_balance main w = (Raise (KeyError "category"), w))
  /\ (r !! "category" = Some (VStr "Доход") ->
      (r !! "amount" = None ->
       Main.display_balance main w = (Raise (KeyError "amount"), w))
      /\ (forall text, r !! "amount" = Some (VStr text) ->
                       Main.display_balance main w = (Raise TypeError, w))).
Proof.
  intros HR HR1. rewrite (display_balance_stores main w _ HR).
  rewrite (sum_amounts_after "Доход" R1 (r :: R2) []).
  2:{ eapply Forall_impl; [|exact HR1]. intros r1. apply well_formed_summable. }
  cbn [Main.sum_amounts]. unfold getitem. split; [by intros ->|].
  intros ->. cbn. rewrite (bool_decide_eq_true_2 (VStr "Доход" = VStr "Доход")) by done.
  split; [by intros ->|]. by intros text ->.
Qed.

End BalanceErrors.

(** ** Further scenarios *)

Lemma strict_json_round_trip : @json_round_trip strict_json.
Proof.
  intros R. cbn. f_equal. induction R as [|r R IH]; cbn; [done|].
  f_equal; [apply list_to_map_to_list | done].
Qed.

Lemma malformed_file_raises_witness :
  files garbled !! DataControl.filename ledger = Some None
  /\ @json_load strict_json None = None
  /\ DataControl.add_record ledger rent garbled = (Raise JSONDecodeError, garbled)
  /\ DataControl.search_records ledger date_income garbled
     = (Raise JSONDecodeError, garbled).
Proof.
  assert (files garbled !! DataControl.filename ledger = Some None) as Hf by reflexivity.
  assert (@json_load strict_json None = None) as Hload by reflexivity.
  destruct (@malformed_file_raises strict_json exact_arithmetic ledger garbled None rent 0
              date_income Hf Hload)
    as (_ & Hadd & _ & Hsearch & _).
  split; [exact Hf|]. split; [exact Hload|]. split; [exact Hadd|exact Hsearch].
Defined.

Lemma missing_file_behaviour_witness :
  @json_round_trip document_json
  /\ files no_files !! DataControl.filename ledger = None
  /\ (exists w', DataControl.add_record ledger salary no_files = (Ok tt, w')
                 /\ stores ledger w' [DataFormat.dictionary salary])
  /\ DataControl.update_record ledger 0 rent no_files = (Ok false, no_files)
  /\ DataControl.search_records ledger date_then_currency no_files = (Ok [], no_files).
Proof.
  assert (files no_files !! DataControl.filename ledger = None) as Hf by reflexivity.
  split; [exact document_json_round_trip|]. split; [exact Hf|].
  exact (missing_file_behaviour document_json_round_trip ledger no_files salary 0
           date_then_currency Hf).
Defined.

Lemma update_record_compose_witness :
  stores ledger two_records two_record_list
  /\ (_ ← DataControl.update_record ledger 0 rent;
      DataControl.update_record ledger 0 salary) two_records
     = DataControl.update_record ledger 0 salary two_records
  /\ (_ ← DataControl.update_record ledger 0 rent;
      DataControl.update_record ledger 1 salary) two_records
     = (_ ← DataControl.update_record ledger 1 salary;
        DataControl.update_record ledger 0 rent) two_records.
Proof.
  assert (stores ledger two_records two_record_list) as HR by reflexivity.
  destruct (update_record_compose document_json_round_trip ledger two_records
              two_record_list 0 1 rent salary HR) as [Hsame Hswap];
    [simpl; lia..|].
  split; [exact HR|]. split; [exact Hsame|]. apply Hswap. lia.
Defined.

Lemma search_records_outcome_witness :
  stores ledger two_records two_record_list
  /\ match (DataControl.search_records ledger [("currency", VStr "USD")] two_records).1 with
     | Ok found => found = filter (satisfies [("currency", VStr "USD")]) two_record_list
     | Raise e =>
         exists key r, e = KeyError key /\ key ∈ [("currency", VStr "USD")].*1
                       /\ r ∈ two_record_list /\ r !! key = None
     end.
Proof.
  assert (stores ledger two_records two_record_list) as HR by reflexivity.
  split; [exact HR|].
  exact (search_records_outcome ledger two_records two_record_list
           [("currency", VStr "USD")] HR).
Defined.

Lemma search_keys_needed_where_reached_witness :
  stores ledger with_transfer
    [DataFormat.dictionary salary; transfer; DataFormat.dictionary food]
  /\ Forall (keys_where_reached income_date_currency)
       [DataFormat.dictionary salary; transfer; DataFormat.dictionary food]
  /\ DataControl.search_records ledger income_date_currency with_transfer
     = (Ok [], with_transfer).
Proof.
  assert (stores ledger with_transfer
            [DataFormat.dictionary salary; transfer; DataFormat.dictionary food])
    as HR by reflexivity.
  assert (Forall (keys_where_reached income_date_currency)
            [DataFormat.dictionary salary; transfer; DataFormat.dictionary food])
    as Hkeys.
  { repeat (apply Forall_cons_iff; split); [..|constructor];
      by apply (all_match_returns _ _ false). }
  split; [exact HR|]. split; [exact Hkeys|].
  exact (proj1 (search_keys_needed_where_reached ledger with_transfer _
                  income_date_currency HR) Hkeys).
Defined.


Lemma input_record_asks_again_witness :
  @UI.input_record document_json decimal_builtins
    (typing ["2024-02-02"; "7"; "2"; "-5"; "15"; "taxi"; "0"])
  = (Return (DataFormat.Build "2024-02-02" "Расход" (Qc_of_Z 15) "taxi"),
     Session document_json ["0"]
       [date_prompt; category_prompt; category_retry; category_prompt;
        amount_prompt; amount_retry; amount_prompt; description_prompt]
       two_records).
Proof.
  apply (@input_record_asks_again document_json decimal_builtins
           "2024-02-02" ["7"] "2" ["-5"] "15" (Qc_of_Z 15) "taxi" ["0"] [] two_records).
  - repeat constructor; done.
  - by right.
  - repeat constructor. exists (Qc_of_Z (-5)). by split.
  - reflexivity.
  - done.
Defined.

Lemma display_records_lines_witness :
  first_missing undated = Some "date"
  /\ @UI.display_records document_json
       ((DataFormat.dictionary <$> two_entries) ++ [undated]) (typing [])
     = (Throw (Py (KeyError "date")),
        Session document_json [] (record_line <$> two_entries) two_records).
Proof.
  assert (first_missing undated = Some "date") as Hkey by reflexivity.
  split; [exact Hkey|].
  exact (proj2 (@display_records_lines document_json two_entries undated []
                  "date" (typing [])) Hkey).
Defined.

Lemma changing_record_rejects_witness :
  stores ledger (disk (typing ["3"; "0"])) (DataFormat.dictionary <$> two_entries)
  /\ @App.changing_record document_json decimal_builtins desk (typing ["3"; "0"])
     = (Return tt,
        Session document_json ["0"]
          ((record_line <$> two_entries)
           ++ [number_prompt; Line [VStr "Некорректный номер записи."]])
          two_records).
Proof.
  assert (stores ledger (disk (typing ["3"; "0"])) (DataFormat.dictionary <$> two_entries))
    as HR by reflexivity.
  split; [exact HR|].
  destruct (@changing_record_rejects document_json decimal_builtins desk
              (typing ["3"; "0"]) two_entries HR) as [_ Hnumber].
  rewrite (Hnumber "3" ["0"]); [reflexivity|done|reflexivity|simpl; lia].
Defined.

Lemma changing_record_replaces_witness :
  stores ledger two_records (DataFormat.dictionary <$> two_entries)
  /\ exists s1 w',
       @UI.input_record document_json decimal_builtins
         (Session _ ["2024-02-02"; "1"; "15"; "gift"]
            ((record_line <$> two_entries) ++ [number_prompt]) two_records)
       = (Return gift, s1)
       /\ @App.changing_record document_json decimal_builtins desk
            (typing ["2"; "2024-02-02"; "1"; "15"; "gift"])
          = (Return tt,
             Session _ (stdin s1)
               (stdout s1 ++ [Line [VStr "Запись успешно изменена."]]) w')
       /\ stores ledger w' (DataFormat.dictionary <$> [salary; gift]).
Proof.
  assert (stores ledger two_records (DataFormat.dictionary <$> two_entries))
    as HR by reflexivity.
  split; [exact HR|].
  set (s1 := (@UI.input_record document_json decimal_builtins
                (Session _ ["2024-02-02"; "1"; "15"; "gift"]
                   ((record_line <$> two_entries) ++ [number_prompt]) two_records)).2).
  assert (@UI.input_record document_json decimal_builtins
            (Session _ ["2024-02-02"; "1"; "15"; "gift"]
               ((record_line <$> two_entries) ++ [number_prompt]) two_records)
          = (Return gift, s1)) as Hinput by reflexivity.
  assert (1 <= 2 <= Z.of_nat (length two_entries))%Z as Hrange by (simpl; lia).
  destruct (@changing_record_replaces document_json decimal_builtins
              document_json_round_trip desk
              (typing ["2"; "2024-02-02"; "1"; "15"; "gift"]) two_entries "2"
              ["2024-02-02"; "1"; "15"; "gift"] 2 gift s1 HR eq_refl eq_refl
              Hrange Hinput)
    as (w' & Hrun & Hstores).
  exists s1, w'. split; [exact Hinput|]. split; [exact Hrun|exact Hstores].
Defined.

Lemma menu_search_lists_matches_witness :
  stores ledger two_records (DataFormat.dictionary <$> two_entries)
  /\ @App.search_records document_json desk (typing ["2024-01-01"; "Доход"])
     = (Return tt,
        Session document_json [] (search_prompts ++ [record_line salary]) two_records)
  /\ @App.search_records document_json desk (typing ["2024-01-01"])
     = (Throw EOFError, Session document_json [] search_prompts two_records).
Proof.
  assert (stores ledger two_records (DataFormat.dictionary <$> two_entries))
    as HR by reflexivity.
  split; [exact HR|]. split.
  - rewrite (@menu_search_lists_matches document_json desk
               (typing ["2024-01-01"; "Доход"]) two_entries HR).
    reflexivity.
  - exact (@menu_search_lists_matches document_json desk
             (typing ["2024-01-01"]) two_entries HR).
Defined.

Lemma start_application_keeps_ledger_witness :
  @json_round_trip document_json
  /\ ledger_of ledger two_records two_entries
  /\ exists o s' entries',
       @App.start_application document_json exact_arithmetic decimal_builtins desk
         (typing ["2"; "2024-02-02"; "1"; "15"; "gift"; "4"; "1"; "x"])
       = Some (o, s')
       /\ ledger_of ledger (disk s') entries'
       /\ (length two_entries <= length entries')%nat.
Proof.
  assert (ledger_of ledger two_records two_entries) as Hledger.
  { split; [reflexivity|].
    apply Forall_cons_iff; split; [by split; [left|]|].
    apply Forall_cons_iff; split; [by split; [right|]|constructor]. }
  split; [exact document_json_round_trip|]. split; [exact Hledger|].
  exact (@start_application_keeps_ledger document_json exact_arithmetic decimal_builtins
           document_json_round_trip desk
           (typing ["2"; "2024-02-02"; "1"; "15"; "gift"; "4"; "1"; "x"])
           two_entries Hledger).
Defined.

Lemma menu_exit_and_unknown_witness :
  ("9" ∉ ["0"; "1"; "2"; "3"; "4"; "5"])
  /\ @App.start_application document_json exact_arithmetic decimal_builtins desk (typing ["9"; "0"; "1"])
     = Some (Return tt,
             Session document_json ["1"]
               [Prompt App.menu; Line [VStr "Некорректный ввод"]; Prompt App.menu]
               two_records).
Proof.
  assert ("9" ∉ ["0"; "1"; "2"; "3"; "4"; "5"]) as Hchoice.
  { intros Hin. repeat (apply elem_of_cons in Hin as [Hin|Hin]; [discriminate Hin|]).
    by apply elem_of_nil in Hin. }
  split; [exact Hchoice|].
  destruct (@menu_exit_and_unknown document_json exact_arithmetic decimal_builtins desk ["1"]
              [Prompt App.menu; Line [VStr "Некорректный ввод"]] two_records)
    as [Hexit _].
  destruct (@menu_exit_and_unknown document_json exact_arithmetic decimal_builtins desk ["0"; "1"]
              [] two_records) as [_ Hskip].
  unfold typing. rewrite (Hskip "9" Hchoice). exact Hexit.
Defined.

Lemma display_balance_first_bad_record_witness :
  stores ledger with_undated ([DataFormat.dictionary salary] ++ undated :: [])
  /\ Forall well_formed [DataFormat.dictionary salary]
  /\ undated !! "category" = Some (VStr "Доход")
  /\ undated !! "amount" = None
  /\ ledger_balance with_undated = (Raise (KeyError "amount"), with_undated).
Proof.
  assert (stores ledger with_undated ([DataFormat.dictionary salary] ++ undated :: []))
    as HR by reflexivity.
  assert (Forall well_formed [DataFormat.dictionary salary]) as Hwf by (repeat constructor).
  assert (undated !! "category" = Some (VStr "Доход")) as Hc by reflexivity.
  assert (undated !! "amount" = None) as Ha by reflexivity.
  split; [exact HR|]. split; [exact Hwf|]. split; [exact Hc|]. split; [exact Ha|].
  exact (proj1 (proj2 (@display_balance_first_bad_record document_json exact_arithmetic desk
                         with_undated
                         [DataFormat.dictionary salary] undated [] HR Hwf) Hc) Ha).
Defined.
